(** * API-signature extraction (build/generate-api.ts)

    A shallow embedding of the signature formatter of [build/generate-api.ts]
    and of the assembler that folds the formatted records of every barrel
    file into one list, followed by the properties of the formatting rules.

    The declarations the script reads come from the ts-morph project: they
    are nodes of a shared, mutable syntax tree.  The embedding keeps that
    shape: a [Store] maps node handles to nodes, the formatting rules run in
    a state-and-error monad over the store, and [removeBody] is a write to
    the store. *)

From Stdlib Require Import List PeanoNat NArith Bool String Ascii Lia.
Import ListNotations.

(** ** JavaScript strings

    A JavaScript string is a sequence of UTF-16 code units. *)

Definition char := N.
Definition jsstring := list char.

(** A string literal of the script, for texts in the ASCII range. *)
Definition js (s : string) : jsstring :=
  List.map N_of_ascii (list_ascii_of_string s).

Definition CR : char := 13%N.
Definition LF : char := 10%N.
Definition SP : char := 32%N.

(** The two-unit separator written ['\r\n'] in the script. *)
Definition CRLF : jsstring := [CR; LF].

Definition char_eqb (a b : char) : bool := N.eqb a b.

Fixpoint jsstring_eqb (a b : jsstring) : bool :=
  match a, b with
  | [], [] => true
  | x :: a', y :: b' => char_eqb x y && jsstring_eqb a' b'
  | _, _ => false
  end.

(** The code units matched by [\s] in a regular expression; [trim] removes
    the same set (WhiteSpace and LineTerminator of ECMAScript). *)
Definition is_space (c : char) : bool :=
  ((9 <=? c) && (c <=? 13) || (c =? 32) || (c =? 160) || (c =? 5760)
   || (8192 <=? c) && (c <=? 8202)
   || (c =? 8232) || (c =? 8233) || (c =? 8239) || (c =? 8287)
   || (c =? 12288) || (c =? 65279))%N.


(** [s.startsWith(pat)], used to find a match of a string pattern. *)
Fixpoint starts_with (pat s : jsstring) : bool :=
  match pat, s with
  | [], _ => true
  | p :: pat', c :: s' => char_eqb p c && starts_with pat' s'
  | _ :: _, [] => false
  end.

(** [text.replace(pat, rep)] with a string pattern: only the first
    occurrence of [pat] is replaced.  The script only passes replacements
    without [$] patterns. *)
Fixpoint replace (pat rep text : jsstring) : jsstring :=
  if starts_with pat text then rep ++ skipn (List.length pat) text
  else match text with
       | [] => []
       | c :: rest => c :: replace pat rep rest
       end.

Fixpoint trimStart (s : jsstring) : jsstring :=
  match s with
  | [] => []
  | c :: rest => if is_space c then trimStart rest else s
  end.

Definition trimEnd (s : jsstring) : jsstring := rev (trimStart (rev s)).

(** [s.trim()] *)
Definition trim (s : jsstring) : jsstring := trimEnd (trimStart s).

(** [parts.join(sep)] *)
Fixpoint join (sep : jsstring) (parts : list jsstring) : jsstring :=
  match parts with
  | [] => []
  | [p] => p
  | p :: rest => p ++ sep ++ join sep rest
  end.

(** Truthiness of a string: the empty string is the only falsy one. *)
Definition truthy (s : jsstring) : bool :=
  match s with [] => false | _ :: _ => true end.

(** [text.replace(/\s\s+/g, ' ')] as the scan the regular expression
    performs, left to right.  [matched] says that the previous code unit
    belonged to a match of [\s\s+], which then greedily takes every
    following white-space unit.  Outside a match, a white-space unit starts
    one exactly when the next unit is white space too; the whole match is
    replaced by one [replacer].  A white-space unit standing alone is kept
    as it is. *)
Fixpoint replace_space_runs (replacer : jsstring) (matched : bool)
    (text : jsstring) : jsstring :=
  match text with
  | [] => []
  | c :: rest =>
      if is_space c then
        if matched then replace_space_runs replacer true rest
        else match rest with
             | c' :: _ =>
                 if is_space c'
                 then replacer ++ replace_space_runs replacer true rest
                 else c :: replace_space_runs replacer false rest
             | [] => [c]
             end
      else c :: replace_space_runs replacer false rest
  end.

(** The script calls it with one argument everywhere, so [replacer] is
    always its default, one space. *)
Definition removeDoubleSpacesAndLineBreaks (text : jsstring) : jsstring :=
  replace_space_runs [SP] false text.

(** ** The syntax tree of the analysis layer

    The script reads declarations through ts-morph accessors.  A node is
    modelled by what those accessors return for it; the texts are the
    source texts ts-morph hands out.  A class holds its methods; apart from
    that the nodes of the store are taken to be disjoint pieces of source,
    so the text of a namespace or of a whole file is a datum of its own.

    In ts-morph the nodes of a file share its source.  Removing a body
    there also shows in the text of every node around the function or
    method (its class, a namespace, the file), in the methods a class
    reports afterwards, and in whatever the type checker inferred from the
    body.  The store follows a removal in the node it is applied to and
    nowhere else.  It is exact for one formatting of one declaration; the
    statements about a whole run say of a later signature only what holds
    with shared source too. *)

(** A node that may carry a body (a function or a method).  Its text is
    [beforeBody] followed by the body, when there is one; the body text
    starts right after the last token of the signature, so it includes the
    white space before its opening brace. *)
Record BodyableText := {
  beforeBody : jsstring;
  body : option jsstring
}.

Definition bodyableText (b : BodyableText) : jsstring :=
  beforeBody b ++ match body b with Some t => t | None => [] end.

(** [node.removeBody()]: the whole range of the body is replaced by a
    semicolon; a node without a body is left as it is. *)
Definition removeBodyText (b : BodyableText) : BodyableText :=
  match body b with
  | Some _ => {| beforeBody := beforeBody b ++ js ";"; body := None |}
  | None => b
  end.

Inductive Scope := Public | Protected | Private.

Record MethodDeclaration := {
  scopeModifier : option Scope;   (* the visibility keyword written, if any *)
  methodText : BodyableText
}.

(** [method.getScope()]: a method without a visibility keyword is public. *)
Definition getScope (method : MethodDeclaration) : Scope :=
  match scopeModifier method with
  | Some s => s
  | None => Public
  end.

Definition Handle := nat.

Record ClassDeclaration := {
  class_name : option jsstring;          (* getName(): undefined for an anonymous default export *)
  class_typeParameters : list jsstring;  (* getTypeParameters(), each by its text *)
  class_extends : option jsstring;       (* getExtends()?.getText() *)
  class_implements : list jsstring;      (* getImplements(), each by its text *)
  class_methods : list MethodDeclaration;
  class_text : jsstring                  (* text of the declaration as written; no rule reads it *)
}.

Inductive VariableDeclarationKind := Const | Let | Var.

Record VariableDeclaration := {
  var_name : jsstring;
  var_typeText : jsstring;   (* getType().getText(declaration): the resolved type *)
  var_declarationKind : VariableDeclarationKind;
  var_text : jsstring        (* text of the declarator, initializer included *)
}.

Record InterfaceDeclaration := {
  iface_name : jsstring;
  iface_typeParameters : list jsstring;
  iface_properties : list jsstring;       (* getProperties(), each by its text *)
  iface_baseDeclarations : list Handle;   (* getBaseDeclarations() *)
  iface_text : jsstring
}.

(** Kinds an exported declaration can have besides the six the script
    knows: a namespace, a whole source file (an [export * as ns]), or the
    expression of an [export default], of which the usual kinds are
    listed. *)
Inductive OtherKind :=
| ModuleDeclaration | SourceFile | Identifier | ObjectLiteralExpression
| ArrayLiteralExpression | ArrowFunction | FunctionExpression
| ClassExpression | CallExpression | NewExpression | StringLiteral
| NumericLiteral | AsExpression.

Inductive Node :=
| NClass (c : ClassDeclaration)
| NFunction (f : BodyableText)
| NVariable (v : VariableDeclaration)
| NInterface (i : InterfaceDeclaration)
| NTypeAlias (text : jsstring)
| NEnum (text : jsstring)
| NOther (k : OtherKind) (text : jsstring).

Definition otherKindName (k : OtherKind) : jsstring :=
  match k with
  | ModuleDeclaration => js "ModuleDeclaration"
  | SourceFile => js "SourceFile"
  | Identifier => js "Identifier"
  | ObjectLiteralExpression => js "ObjectLiteralExpression"
  | ArrayLiteralExpression => js "ArrayLiteralExpression"
  | ArrowFunction => js "ArrowFunction"
  | FunctionExpression => js "FunctionExpression"
  | ClassExpression => js "ClassExpression"
  | CallExpression => js "CallExpression"
  | NewExpression => js "NewExpression"
  | StringLiteral => js "StringLiteral"
  | NumericLiteral => js "NumericLiteral"
  | AsExpression => js "AsExpression"
  end.

(** [node.getKindName()] *)
Definition getKindName (n : Node) : jsstring :=
  match n with
  | NClass _ => js "ClassDeclaration"
  | NFunction _ => js "FunctionDeclaration"
  | NVariable _ => js "VariableDeclaration"
  | NInterface _ => js "InterfaceDeclaration"
  | NTypeAlias _ => js "TypeAliasDeclaration"
  | NEnum _ => js "EnumDeclaration"
  | NOther k _ => otherKindName k
  end.

(** The type guards of ts-morph: each tests the kind of the node.  In the
    rules below a guard and the narrowing it gives are one [match]. *)
Definition isClassDeclaration (n : Node) : bool :=
  match n with NClass _ => true | _ => false end.
Definition isFunctionDeclaration (n : Node) : bool :=
  match n with NFunction _ => true | _ => false end.
Definition isVariableDeclaration (n : Node) : bool :=
  match n with NVariable _ => true | _ => false end.
Definition isInterfaceDeclaration (n : Node) : bool :=
  match n with NInterface _ => true | _ => false end.
Definition isTypeAliasDeclaration (n : Node) : bool :=
  match n with NTypeAlias _ => true | _ => false end.
Definition isEnumDeclaration (n : Node) : bool :=
  match n with NEnum _ => true | _ => false end.

(** [node.getText()] *)
Definition nodeText (n : Node) : jsstring :=
  match n with
  | NClass c => class_text c
  | NFunction f => bodyableText f
  | NVariable v => var_text v
  | NInterface i => iface_text i
  | NTypeAlias text => text
  | NEnum text => text
  | NOther _ text => text
  end.

(** ** The store and the monad of the script *)

Definition Store := Handle -> Node.

Definition update (s : Store) (h : Handle) (n : Node) : Store :=
  fun h' => if Nat.eqb h' h then n else s h'.

(** What a [throw] carries: an [Error] made by the script with its message,
    or the TypeError of reading a property of [undefined]. *)
Inductive Exception :=
| Error (message : jsstring)
| TypeError.

Definition M (A : Type) : Type := Store -> Exception + (A * Store).

Definition ret {A} (a : A) : M A := fun s => inr (a, s).

Definition bind {A B} (m : M A) (k : A -> M B) : M B :=
  fun s => match m s with
           | inl e => inl e
           | inr (a, s') => k a s'
           end.

Definition throw {A} (e : Exception) : M A := fun _ => inl e.

Definition getNode (h : Handle) : M Node := fun s => inr (s h, s).

Definition setNode (h : Handle) (n : Node) : M unit :=
  fun s => inr (tt, update s h n).

Declare Scope script_scope.
Delimit Scope script_scope with script.
Notation "x <- c ;; k" := (bind c (fun x => k))
  (at level 61, c at next level, right associativity) : script_scope.
Notation "c ;; k" := (bind c (fun _ => k))
  (at level 61, right associativity) : script_scope.
Open Scope script_scope.

Fixpoint mapM {A B} (f : A -> M B) (l : list A) : M (list B) :=
  match l with
  | [] => ret []
  | a :: rest => b <- f a ;; bs <- mapM f rest ;; ret (b :: bs)
  end.

(** [declaration.removeBody()] on a function declaration. *)
Definition removeBody (declaration : Handle) : M unit :=
  n <- getNode declaration ;;
  match n with
  | NFunction f => setNode declaration (NFunction (removeBodyText f))
  | _ => ret tt
  end.

(** [declaration.getText()] *)
Definition getText (declaration : Handle) : M jsstring :=
  n <- getNode declaration ;; ret (nodeText n).

(** ** The formatting rules *)

(** A template literal turns [undefined] into the text [undefined]. *)
Definition interpolate (name : option jsstring) : jsstring :=
  match name with
  | Some n => n
  | None => js "undefined"
  end.

Definition formatFunctionDeclaration (declaration : Handle) : M jsstring :=
  d <- getNode declaration ;;
  match d with
  | NFunction _ =>
      removeBody declaration ;;
      text <- getText declaration ;;
      let signature := replace (js "export function") [] text in
      ret (trim (removeDoubleSpacesAndLineBreaks signature))
  | _ => throw (Error (js "Declaration is not a function"))
  end.

(** The inner function of the class rule.  It returns [undefined] ([None])
    for a method that is not public; otherwise it removes the body of the
    method, which is the second component, and returns the text left. *)
Definition formatMethodText (method : MethodDeclaration)
  : option jsstring * MethodDeclaration :=
  match getScope method with
  | Public =>
      let method' := {| scopeModifier := scopeModifier method;
                        methodText := removeBodyText (methodText method) |} in
      (Some (bodyableText (methodText method')), method')
  | _ => (None, method)
  end.

(** [.filter(Boolean)] on an array of strings and [undefined]. *)
Fixpoint filterBoolean (l : list (option jsstring)) : list jsstring :=
  match l with
  | [] => []
  | Some s :: rest => if truthy s then s :: filterBoolean rest
                      else filterBoolean rest
  | None :: rest => filterBoolean rest
  end.

Definition formatClassDeclaration (declaration : Handle) : M jsstring :=
  d <- getNode declaration ;;
  match d with
  | NClass c =>
      let classNameText := class_name c in
      let typesText :=
        join (js ", ")
             (map removeDoubleSpacesAndLineBreaks (class_typeParameters c)) in
      let extendsText :=
        removeDoubleSpacesAndLineBreaks
          (match class_extends c with Some t => t | None => [] end) in
      let implementsText :=
        join (js ", ")
             (map removeDoubleSpacesAndLineBreaks (class_implements c)) in
      let formatted := map formatMethodText (class_methods c) in
      setNode declaration
        (NClass {| class_name := class_name c;
                   class_typeParameters := class_typeParameters c;
                   class_extends := class_extends c;
                   class_implements := class_implements c;
                   class_methods := map snd formatted;
                   class_text := class_text c |}) ;;
      let methodsText := join CRLF (filterBoolean (map fst formatted)) in
      let signature := js "class " ++ interpolate classNameText in
      let signature :=
        if truthy typesText
        then signature ++ js "<" ++ typesText ++ js ">" else signature in
      let signature :=
        if truthy extendsText
        then signature ++ js " extends " ++ extendsText else signature in
      let signature :=
        if truthy implementsText
        then signature ++ js " implements " ++ implementsText
        else signature in
      let signature :=
        if truthy methodsText
        then signature ++ js " {" ++ CRLF ++ methodsText ++ CRLF ++ js "}"
        else signature ++ js " { }" in
      ret (trim signature)
  | _ => throw (Error (js "Declaration is not a class"))
  end.

Definition formatVariableDeclaration (declaration : Handle) : M jsstring :=
  d <- getNode declaration ;;
  match d with
  | NVariable v =>
      let nameText := var_name v in
      let typeText := var_typeText v in
      ret (js "const " ++ nameText ++ js ": " ++ typeText)
  | _ => throw (Error (js "Declaration is not a variable"))
  end.

Definition formatTypeAliasDeclaration (declaration : Handle) : M jsstring :=
  d <- getNode declaration ;;
  match d with
  | NTypeAlias _ =>
      text <- getText declaration ;;
      ret (trim (replace (js "export") [] text))
  | _ => throw (Error (js "Declaration is not a type alias"))
  end.

Definition formatEnumDeclaration (declaration : Handle) : M jsstring :=
  d <- getNode declaration ;;
  match d with
  | NEnum _ => getText declaration
  | _ => throw (Error (js "Declaration is not an enum"))
  end.

(** The section a base declaration contributes to an interface: nothing
    unless the base is itself an interface; else an empty line, the label
    and the properties of the base. *)
Definition inheritedSection (b : Node) : list jsstring :=
  match b with
  | NInterface bi =>
      [ [] ; js "// inherited from " ++ iface_name bi ]
      ++ map removeDoubleSpacesAndLineBreaks (iface_properties bi)
  | _ => []
  end.

Definition formatInterfaceDeclaration (declaration : Handle) : M jsstring :=
  d <- getNode declaration ;;
  match d with
  | NInterface i =>
      let interfaceNameText := iface_name i in
      let typesText :=
        join (js ", ")
             (map removeDoubleSpacesAndLineBreaks (iface_typeParameters i)) in
      let ownPropertiesText :=
        map removeDoubleSpacesAndLineBreaks (iface_properties i) in
      bases <- mapM getNode (iface_baseDeclarations i) ;;
      let extendedPropertiesText :=
        fold_left (fun props prop => props ++ prop)
                  (map inheritedSection bases) [] in
      let propertiesText :=
        join CRLF (ownPropertiesText ++ extendedPropertiesText) in
      let signature := js "interface " ++ interfaceNameText in
      let signature :=
        if truthy typesText
        then signature ++ js "<" ++ typesText ++ js ">" else signature in
      let signature :=
        if truthy propertiesText
        then signature ++ js " {" ++ CRLF ++ propertiesText ++ CRLF ++ js "}"
        else signature ++ js " {}" in
      ret signature
  | _ => throw (Error (js "Declaration is not an interface"))
  end.

(** ** The dispatch table and the assembler *)

(** The object [signatures]: its own properties, by key. *)
Definition signatures : list (jsstring * (Handle -> M jsstring)) :=
  [ (js "ClassDeclaration", formatClassDeclaration);
    (js "FunctionDeclaration", formatFunctionDeclaration);
    (js "VariableDeclaration", formatVariableDeclaration);
    (js "InterfaceDeclaration", formatInterfaceDeclaration);
    (js "TypeAliasDeclaration", formatTypeAliasDeclaration);
    (js "EnumDeclaration", formatEnumDeclaration) ].

(** [table[key]] among the own properties of the object; [None] stands for
    [undefined].  The keys looked up are names of syntax kinds, and no
    member of [Object.prototype] bears such a name. *)
Fixpoint property {A} (table : list (jsstring * A)) (key : jsstring)
  : option A :=
  match table with
  | [] => None
  | (k, v) :: rest => if jsstring_eqb k key then Some v else property rest key
  end.

Module Output.
Record t := {
  module : jsstring;
  api : jsstring;
  kind : jsstring;
  signatures : list jsstring
}.
End Output.

(** A barrel file: the name of its directory and its exported
    declarations, a map iterated in insertion order. *)
Record SourceFileHandle := {
  directoryBaseName : jsstring;
  exportedDeclarations : list (jsstring * list Handle)
}.

(** The callback of [declarations.map]: the rule of the declaration's kind
    or, when the table has none, the text of the declaration. *)
Definition formatOne (d : Handle) : M jsstring :=
  n <- getNode d ;;
  let formatter :=
    match property signatures (getKindName n) with
    | Some f => f
    | None => fun declaration => getText declaration
    end in
  formatter d.

(** [declarations[0].getKindName()]: a TypeError when the array is empty. *)
Definition firstKindName (declarations : list Handle) : M jsstring :=
  match declarations with
  | d0 :: _ => n <- getNode d0 ;; ret (getKindName n)
  | [] => throw TypeError
  end.

(** The [for ... of] loop of [generateApiForFile], with [fileOutput] as the
    array it pushes to. *)
Fixpoint pushExports (module : jsstring)
    (entries : list (jsstring * list Handle))
    (fileOutput : list Output.t) : M (list Output.t) :=
  match entries with
  | [] => ret fileOutput
  | (key, declarations) :: rest =>
      kindName <- firstKindName declarations ;;
      sigs <- mapM formatOne declarations ;;
      pushExports module rest
        (fileOutput ++ [ {| Output.module := module;
                            Output.api := key;
                            Output.kind := kindName;
                            Output.signatures := sigs |} ])
  end.

Definition generateApiForFile (sourceFile : SourceFileHandle)
  : M (list Output.t) :=
  let module := directoryBaseName sourceFile in
  let exportDeclarations := exportedDeclarations sourceFile in
  pushExports module exportDeclarations [].

(** [generateApi], up to the list it hands to [writeApi]; [files] is what
    [getBarrelFiles] returned. *)
Definition generateApi (files : list SourceFileHandle) : M (list Output.t) :=
  perFile <- mapM generateApiForFile files ;;
  ret (fold_left (fun acc file => acc ++ file) perFile []).

(** ** Observations used in the statements *)

(** The value a run returns, without the final store. *)
Definition run {A} (m : M A) (s : Store) : Exception + A :=
  match m s with
  | inl e => inl e
  | inr (a, _) => inr a
  end.

(** Two neighbouring white-space units. *)
Fixpoint adjacent_spaces (s : jsstring) : bool :=
  match s with
  | c :: ((c' :: _) as rest) =>
      (is_space c && is_space c') || adjacent_spaces rest
  | _ => false
  end.



Definition starts_non_space (s : jsstring) : bool :=
  match s with
  | [] => true
  | c :: _ => negb (is_space c)
  end.

(** A run that ended in a [throw] of any kind. *)
Definition aborted {A} (r : Exception + A) : bool :=
  match r with inl _ => true | inr _ => false end.

(** The text of a bodyable node once its body is gone: the text before the
    body, closed by a semicolon when a body was removed. *)
Definition signatureOnly (b : BodyableText) : jsstring :=
  beforeBody b ++ match body b with Some _ => js ";" | None => [] end.

(** A method is public when it says so or says nothing. *)
Definition isPublic (method : MethodDeclaration) : bool :=
  match scopeModifier method with
  | None | Some Public => true
  | Some Protected | Some Private => false
  end.

(** The [<...>] clause of a class or interface, absent without type
    parameters. *)
Definition typeParameterClause (typeParameters : list jsstring) : jsstring :=
  let typesText :=
    join (js ", ") (map removeDoubleSpacesAndLineBreaks typeParameters) in
  if truthy typesText then js "<" ++ typesText ++ js ">" else [].

(** Everything of a class signature before its body. *)
Definition classHeader (c : ClassDeclaration) : jsstring :=
  let extendsText :=
    removeDoubleSpacesAndLineBreaks
      (match class_extends c with Some t => t | None => [] end) in
  let implementsText :=
    join (js ", ")
         (map removeDoubleSpacesAndLineBreaks (class_implements c)) in
  js "class " ++ interpolate (class_name c)
  ++ typeParameterClause (class_typeParameters c)
  ++ (if truthy extendsText then js " extends " ++ extendsText else [])
  ++ (if truthy implementsText
      then js " implements " ++ implementsText else []).

(** The body part of a class signature: the public methods without their
    bodies, one per line, or the empty form. *)
Definition classBody (c : ClassDeclaration) : jsstring :=
  let methodsText :=
    join CRLF (filter truthy
                 (map (fun m => signatureOnly (methodText m))
                      (filter isPublic (class_methods c)))) in
  if truthy methodsText
  then js " {" ++ CRLF ++ methodsText ++ CRLF ++ js "}"
  else js " { }".

(** The lines between the braces of an interface signature: its own
    properties, then the section of each base the store holds. *)
Definition interfaceLines (s : Store) (i : InterfaceDeclaration)
  : list jsstring :=
  map removeDoubleSpacesAndLineBreaks (iface_properties i)
  ++ List.concat (map inheritedSection (map s (iface_baseDeclarations i))).

Definition interfaceBody (s : Store) (i : InterfaceDeclaration) : jsstring :=
  let propertiesText := join CRLF (interfaceLines s i) in
  if truthy propertiesText
  then js " {" ++ CRLF ++ propertiesText ++ CRLF ++ js "}"
  else js " {}".

Definition interfaceHeader (i : InterfaceDeclaration) : jsstring :=
  js "interface " ++ iface_name i
  ++ typeParameterClause (iface_typeParameters i).

(** The signature of a node in a store, rule by rule; [formatOne_runs]
    shows that it is what the callback of [declarations.map] returns. *)
Definition signatureOf (s : Store) (n : Node) : jsstring :=
  match n with
  | NClass c => classHeader c ++ classBody c
  | NFunction f =>
      trim (removeDoubleSpacesAndLineBreaks
              (replace (js "export function") [] (signatureOnly f)))
  | NVariable v => js "const " ++ var_name v ++ js ": " ++ var_typeText v
  | NInterface i => interfaceHeader i ++ interfaceBody s i
  | NTypeAlias text => trim (replace (js "export") [] text)
  | NEnum text => text
  | NOther _ text => text
  end.

(** What formatting leaves of a node: the bodies it removes are gone. *)
Definition stripMethod (method : MethodDeclaration) : MethodDeclaration :=
  snd (formatMethodText method).

Definition strip (n : Node) : Node :=
  match n with
  | NFunction f => NFunction (removeBodyText f)
  | NClass c =>
      NClass {| class_name := class_name c;
                class_typeParameters := class_typeParameters c;
                class_extends := class_extends c;
                class_implements := class_implements c;
                class_methods := map stripMethod (class_methods c);
                class_text := class_text c |}
  | _ => n
  end.

(** [s'] is [s] after some formatting: node by node, either untouched or
    stripped. *)
Definition stripped (s s' : Store) : Prop :=
  forall h, s' h = s h \/ s' h = strip (s h).

(** The record [generateApiForFile] pushes for one entry of the map. *)
Definition recordOf (s : Store) (module : jsstring)
    (entry : jsstring * list Handle) : Output.t :=
  {| Output.module := module;
     Output.api := fst entry;
     Output.kind := match snd entry with
                    | d0 :: _ => getKindName (s d0)
                    | [] => []
                    end;
     Output.signatures := map (fun d => signatureOf s (s d)) (snd entry) |}.

(** The records of a file, from the store the run started with. *)
Definition recordsOf (s : Store) (file : SourceFileHandle) : list Output.t :=
  map (recordOf s (directoryBaseName file)) (exportedDeclarations file).

(** ** Sample declarations *)

Definition bareStore : Store := fun _ => NOther Identifier [].

Definition mkRecord (module api kind : string) (sigs : list jsstring)
  : Output.t :=
  {| Output.module := js module;
     Output.api := js api;
     Output.kind := js kind;
     Output.signatures := sigs |}.

(** [export function add(a: number, b: number): number { return a+b; }] *)
Definition addDeclaration : BodyableText :=
  {| beforeBody := js "export function add(a: number, b: number): number";
     body := Some (js " { return a+b; }") |}.

(** The same function written without [export] and exported by a separate
    [export { add }]. *)
Definition addDeclarationPlain : BodyableText :=
  {| beforeBody := js "function add(a: number, b: number): number";
     body := Some (js " { return a+b; }") |}.

(** The barrel file of the module [widgets], exporting [add]. *)
Definition widgets (h : Handle) : SourceFileHandle :=
  {| directoryBaseName := js "widgets";
     exportedDeclarations := [(js "add", [h])] |}.

Definition widgetsStore : Store := update bareStore 0 (NFunction addDeclaration).

(** [export class Counter { increment(): void { this.n++; } }] *)
Definition counterClass : ClassDeclaration :=
  {| class_name := Some (js "Counter");
     class_typeParameters := [];
     class_extends := None;
     class_implements := [];
     class_methods :=
       [ {| scopeModifier := None;
            methodText := {| beforeBody := js "increment(): void";
                             body := Some (js " { this.n++; }") |} |} ];
     class_text := js "export class Counter { increment(): void { this.n++; } }" |}.


(** A project of two modules.  [store] exports an overloaded function, a
    class and a namespace; [effects] exports a variable and the same
    function signature twice. *)
Definition projectStore : Store :=
  fun h =>
    match h with
    | 0 => NFunction {| beforeBody := js "export function select(key: string): number;";
                        body := None |}
    | 1 => NFunction {| beforeBody := js "export function select(key: number): number;";
                        body := None |}
    | 2 => NFunction {| beforeBody := js "export function select(key: any): number";
                        body := Some (js " { return 0; }") |}
    | 3 => NClass counterClass
    | 4 => NOther ModuleDeclaration (js "namespace internal { }")
    | 5 => NVariable {| var_name := js "ROOT";
                        var_typeText := js "InjectionToken<string>";
                        var_declarationKind := Let;
                        var_text := js "ROOT = new InjectionToken<string>('root')" |}
    | _ => NFunction {| beforeBody := js "export function noop(): void;";
                        body := None |}
    end.

Definition storeFile : SourceFileHandle :=
  {| directoryBaseName := js "store";
     exportedDeclarations :=
       [ (js "select", [0; 1; 2]); (js "Counter", [3]);
         (js "internal", [4]) ] |}.

Definition effectsFile : SourceFileHandle :=
  {| directoryBaseName := js "effects";
     exportedDeclarations := [ (js "ROOT", [5]); (js "noop", [6; 7]) ] |}.

Definition projectFiles : list SourceFileHandle := [storeFile; effectsFile].

(** Every exported name has at least one declaration, as the map of
    exported declarations of the specification requires. *)
Definition declared (file : SourceFileHandle) : Prop :=
  Forall (fun entry => snd entry <> []) (exportedDeclarations file).

(** [interface Root { id: string; }], [interface A extends Root
    { a: number; }] and [interface B<T> extends A { b: T; }]. *)
Definition rootInterface : InterfaceDeclaration :=
  {| iface_name := js "Root";
     iface_typeParameters := [];
     iface_properties := [js "id: string;"];
     iface_baseDeclarations := [];
     iface_text := js "export interface Root { id: string; }" |}.

Definition interfaceA : InterfaceDeclaration :=
  {| iface_name := js "A";
     iface_typeParameters := [];
     iface_properties := [js "a: number;"];
     iface_baseDeclarations := [0];
     iface_text := js "export interface A extends Root { a: number; }" |}.

Definition interfaceB : InterfaceDeclaration :=
  {| iface_name := js "B";
     iface_typeParameters := [js "T"];
     iface_properties := [js "b: T;"];
     iface_baseDeclarations := [1];
     iface_text := js "export interface B<T> extends A { b: T; }" |}.

Definition shapesStore : Store :=
  fun h =>
    match h with
    | 0 => NInterface rootInterface
    | 1 => NInterface interfaceA
    | 2 => NInterface interfaceB
    | _ => NOther Identifier []
    end.

(** [interface Marker {}] and [interface Tagged extends Marker {}]: no
    property anywhere. *)
Definition markerInterface : InterfaceDeclaration :=
  {| iface_name := js "Marker";
     iface_typeParameters := [];
     iface_properties := [];
     iface_baseDeclarations := [];
     iface_text := js "export interface Marker {}" |}.

Definition taggedInterface : InterfaceDeclaration :=
  {| iface_name := js "Tagged";
     iface_typeParameters := [];
     iface_properties := [];
     iface_baseDeclarations := [0];
     iface_text := js "export interface Tagged extends Marker {}" |}.

(** A class whose only methods are private or protected. *)
Definition sealedClass : ClassDeclaration :=
  {| class_name := Some (js "Sealed");
     class_typeParameters := [];
     class_extends := None;
     class_implements := [];
     class_methods :=
       [ {| scopeModifier := Some Private;
            methodText := {| beforeBody := js "private reset(): void";
                             body := Some (js " { }") |} |};
         {| scopeModifier := Some Protected;
            methodText := {| beforeBody := js "protected tick(): void";
                             body := Some (js " { }") |} |} ];
     class_text := [] |}.

Definition emptyShapesStore : Store :=
  fun h =>
    match h with
    | 0 => NInterface markerInterface
    | 1 => NInterface taggedInterface
    | 2 => NClass sealedClass
    | _ => NOther Identifier []
    end.

(** A class with one method of each visibility and one without any. *)
Definition serviceClass : ClassDeclaration :=
  {| class_name := Some (js "Service");
     class_typeParameters := [js "T"];
     class_extends := Some (js "Base<T>");
     class_implements := [js "OnDestroy"];
     class_methods :=
       [ {| scopeModifier := None;
            methodText := {| beforeBody := js "load(id: string): T";
                             body := Some (js " { return this.cache[id]; }") |} |};
         {| scopeModifier := Some Private;
            methodText := {| beforeBody := js "private evict(): void";
                             body := Some (js " { }") |} |};
         {| scopeModifier := Some Public;
            methodText := {| beforeBody := js "public static create(): Service<any>";
                             body := Some (js " { return new Service(); }") |} |};
         {| scopeModifier := Some Protected;
            methodText := {| beforeBody := js "protected abstract hook(): void;";
                             body := None |} |} ];
     class_text := [] |}.

Definition serviceStore : Store := update bareStore 0 (NClass serviceClass).

(** [type Cfg = { exportAll: boolean };], exported by a separate
    [export { Cfg }]: its text carries no [export] keyword. *)
Definition cfgStore : Store :=
  update bareStore 0 (NTypeAlias (js "type Cfg = { exportAll: boolean };")).

(** [export let retries = 3], of resolved type [number]. *)
Definition retriesVariable : VariableDeclaration :=
  {| var_name := js "retries";
     var_typeText := js "number";
     var_declarationKind := Let;
     var_text := js "retries = 3" |}.

Definition retriesStore : Store := update bareStore 0 (NVariable retriesVariable).

(** A rule guards its kind: it throws its own [Error] on every node of
    another kind, and does not throw on a node of its kind. *)
Definition guards (rule : Handle -> M jsstring) (isKind : Node -> bool)
    (message : string) : Prop :=
  forall (s : Store) (h : Handle),
    (isKind (s h) = false -> run (rule h) s = inl (Error (js message))) /\
    (isKind (s h) = true -> aborted (run (rule h) s) = false).

(** ** Further observations *)

(** [text.includes(pat)] *)
Fixpoint occurs (pat text : jsstring) : bool :=
  starts_with pat text
  || match text with
     | [] => false
     | _ :: rest => occurs pat rest
     end.

(** The code units of a text that are not white space, in order. *)
Definition non_space_units (s : jsstring) : jsstring :=
  filter (fun c => negb (is_space c)) s.

Definition all_spaces (w : jsstring) : bool := forallb is_space w.

(** A class with other methods, all else equal. *)
Definition withMethods (c : ClassDeclaration)
    (methods : list MethodDeclaration) : ClassDeclaration :=
  {| class_name := class_name c;
     class_typeParameters := class_typeParameters c;
     class_extends := class_extends c;
     class_implements := class_implements c;
     class_methods := methods;
     class_text := class_text c |}.

(** A method whose body, if it has one, is replaced by another text. *)
Definition withBody (bodyText : jsstring) (method : MethodDeclaration)
  : MethodDeclaration :=
  {| scopeModifier := scopeModifier method;
     methodText :=
       {| beforeBody := beforeBody (methodText method);
          body := match body (methodText method) with
                  | Some _ => Some bodyText
                  | None => None
                  end |} |}.

(** An export whose array of declarations is empty. *)
Definition undeclared (file : SourceFileHandle) : Prop :=
  Exists (fun entry => snd entry = []) (exportedDeclarations file).

(** [export default function noop() { }]: no [export function] in it. *)
Definition defaultNoop : BodyableText :=
  {| beforeBody := js "export default function noop()";
     body := Some (js " { }") |}.

Definition defaultNoopStore : Store := update bareStore 0 (NFunction defaultNoop).

(** [export type Id = string;] *)
Definition idAliasStore : Store :=
  update bareStore 0 (NTypeAlias (js "export type Id = string;")).

(** [declare type Id = string;], exported by an export list. *)
Definition declaredAliasStore : Store :=
  update bareStore 0 (NTypeAlias (js "declare type Id = string;")).

(** [interface Point extends Shape, Serializable, Base] where [Shape] and
    [Serializable] are interfaces and [Base] is a class. *)
Definition pointInterface : InterfaceDeclaration :=
  {| iface_name := js "Point";
     iface_typeParameters := [];
     iface_properties := [js "x: number;"];
     iface_baseDeclarations := [0; 1; 2];
     iface_text := [] |}.

Definition pointStore : Store :=
  fun h =>
    match h with
    | 0 => NInterface {| iface_name := js "Shape";
                         iface_typeParameters := [];
                         iface_properties := [js "area: number;"];
                         iface_baseDeclarations := [];
                         iface_text := [] |}
    | 1 => NClass sealedClass
    | 2 => NInterface {| iface_name := js "Serializable";
                         iface_typeParameters := [];
                         iface_properties := [];
                         iface_baseDeclarations := [];
                         iface_text := [] |}
    | 3 => NInterface pointInterface
    | _ => NOther Identifier []
    end.

(** The rule the script has for a node, by the kind of the node; for the
    kinds it has no rule for, the text of the node. *)
Definition ruleOf (n : Node) : Handle -> M jsstring :=
  match n with
  | NClass _ => formatClassDeclaration
  | NFunction _ => formatFunctionDeclaration
  | NVariable _ => formatVariableDeclaration
  | NInterface _ => formatInterfaceDeclaration
  | NTypeAlias _ => formatTypeAliasDeclaration
  | NEnum _ => formatEnumDeclaration
  | NOther _ _ => getText
  end.

(** What the removal of bodies, of the node itself or anywhere else in the
    project, leaves of a node: its kind; of a function, its text up to the
    body; of a class, its name and its type-parameter and heritage clauses;
    of a variable, its name; of an interface, its name, type parameters and
    own properties; of a type alias and of an enum, the text.  The methods
    a class reports, the resolved type of a variable, the bases of an
    interface and the text of any other node are left open. *)
Definition evolvedNode (n n' : Node) : Prop :=
  match n, n' with
  | NFunction f, NFunction f' => signatureOnly f' = signatureOnly f
  | NClass c, NClass c' =>
      class_name c' = class_name c /\
      class_typeParameters c' = class_typeParameters c /\
      class_extends c' = class_extends c /\
      class_implements c' = class_implements c
  | NVariable v, NVariable v' => var_name v' = var_name v
  | NInterface i, NInterface i' =>
      iface_name i' = iface_name i /\
      iface_typeParameters i' = iface_typeParameters i /\
      iface_properties i' = iface_properties i
  | NTypeAlias text, NTypeAlias text' => text' = text
  | NEnum text, NEnum text' => text' = text
  | NOther k _, NOther k' _ => k' = k
  | _, _ => False
  end.

(** [s'] is a state of the tree [s] after bodies were removed. *)
Definition evolved (s s' : Store) : Prop :=
  forall h, evolvedNode (s h) (s' h).


(** A record without the texts of its signatures. *)
Definition skeleton (r : Output.t) : jsstring * jsstring * jsstring * nat :=
  (Output.module r, Output.api r, Output.kind r,
   List.length (Output.signatures r)).

(** ** Strings: white space, trimming, joining *)

Section Strings.


Lemma adjacent_spaces_cons (c : char) (s : jsstring) :
  adjacent_spaces (c :: s) = false <->
  adjacent_spaces s = false /\
  (is_space c = false \/ starts_non_space s = true).
Proof.
  destruct s as [|c' rest].
  - cbn. split; [intros _; split; [reflexivity | now right] | reflexivity].
  - cbn [adjacent_spaces starts_non_space]. rewrite orb_false_iff.
    rewrite andb_false_iff, negb_true_iff. tauto.
Qed.

(** Inside a match the scan emits nothing until a unit that is not white
    space; outside it never emits two white-space units in a row. *)
Lemma replace_space_runs_shape (text : jsstring) :
  (adjacent_spaces (replace_space_runs [SP] true text) = false /\
   starts_non_space (replace_space_runs [SP] true text) = true) /\
  adjacent_spaces (replace_space_runs [SP] false text) = false.
Proof.
  induction text as [|c rest [[IHt IHs] IHf]].
  - cbn. auto.
  - cbn [replace_space_runs].
    destruct (is_space c) eqn:Hc.
    + split; [split; assumption|].
      destruct rest as [|c' rest']; [reflexivity|].
      destruct (is_space c') eqn:Hc'.
      * cbn [app]. apply adjacent_spaces_cons. split; [assumption | now right].
      * apply adjacent_spaces_cons. split; [assumption|].
        right. cbn [replace_space_runs]. rewrite Hc'. cbn. now rewrite Hc'.
    + assert (Hcons : adjacent_spaces
                        (c :: replace_space_runs [SP] false rest) = false).
      { apply adjacent_spaces_cons. split; [assumption | now left]. }
      split; [split|]; try assumption.
      cbn. now rewrite Hc.
Qed.

Lemma removeDoubleSpacesAndLineBreaks_no_adjacent (text : jsstring) :
  adjacent_spaces (removeDoubleSpacesAndLineBreaks text) = false.
Proof. apply replace_space_runs_shape. Qed.


Lemma trimStart_suffix (s : jsstring) :
  exists dropped, s = dropped ++ trimStart s.
Proof.
  induction s as [|c rest [dropped IH]].
  - now exists [].
  - cbn. destruct (is_space c).
    + exists (c :: dropped). cbn. now f_equal.
    + now exists [].
Qed.

Lemma trimEnd_prefix (s : jsstring) :
  exists dropped, s = trimEnd s ++ dropped.
Proof.
  unfold trimEnd. destruct (trimStart_suffix (rev s)) as [dropped H].
  exists (rev dropped).
  rewrite <- rev_app_distr, <- H. symmetry. apply rev_involutive.
Qed.


Lemma trimStart_non_space (c : char) (s : jsstring) :
  is_space c = false -> trimStart (c :: s) = c :: s.
Proof. intros H. cbn. now rewrite H. Qed.

Lemma trimEnd_non_space (s : jsstring) (c : char) :
  is_space c = false -> trimEnd (s ++ [c]) = s ++ [c].
Proof.
  intros H. unfold trimEnd. rewrite rev_app_distr. cbn [rev app].
  rewrite trimStart_non_space by assumption.
  cbn [rev]. now rewrite rev_involutive.
Qed.

(** Trimming leaves alone a text that neither starts nor ends with white
    space. *)
Lemma trim_solid (c : char) (middle : jsstring) (c' : char) :
  is_space c = false -> is_space c' = false ->
  trim (c :: middle ++ [c']) = c :: middle ++ [c'].
Proof.
  intros Hc Hc'. unfold trim. rewrite trimStart_non_space by assumption.
  change (c :: middle ++ [c']) with ((c :: middle) ++ [c']).
  now apply trimEnd_non_space.
Qed.

Lemma trim_solid_end (x : jsstring) (z : char) :
  negb (starts_non_space x) = false -> x <> [] -> is_space z = false ->
  trim (x ++ [z]) = x ++ [z].
Proof.
  destruct x as [|c middle]; [congruence|].
  cbn [starts_non_space]. rewrite negb_involutive. intros Hc _ Hz.
  now apply trim_solid.
Qed.

Lemma truthy_app_r (a b : jsstring) : truthy b = true -> truthy (a ++ b) = true.
Proof. destruct a; [trivial | reflexivity]. Qed.

Lemma join_truthy (sep : jsstring) (parts : list jsstring) (p : jsstring) :
  In p parts -> truthy p = true -> truthy (join sep parts) = true.
Proof.
  induction parts as [|q rest IH]; [contradiction|].
  intros [->|Hin] Hp.
  - destruct rest; [assumption|]. cbn [join].
    destruct p; [discriminate | reflexivity].
  - destruct rest as [|r rest']; [contradiction|].
    cbn [join]. apply truthy_app_r, truthy_app_r. now apply IH.
Qed.

Lemma replace_at_start (pat rest : jsstring) :
  replace pat [] (pat ++ rest) = rest.
Proof.
  assert (Hs : starts_with pat (pat ++ rest) = true).
  { induction pat as [|p pat IH]; [reflexivity|].
    cbn. unfold char_eqb. now rewrite N.eqb_refl. }
  destruct pat as [|p pat]; [destruct rest; reflexivity|].
  cbn [replace app]. cbn [app] in Hs. rewrite Hs.
  cbn [app]. change (p :: pat ++ rest) with ((p :: pat) ++ rest).
  now rewrite skipn_app, skipn_all, Nat.sub_diag.
Qed.

End Strings.

(** ** What one run of each rule returns *)

(** Unfolds the monad of the script in the goal. *)
Ltac script :=
  cbv beta iota delta [run bind ret throw getNode setNode getText removeBody].

(** The same, reading the node a hypothesis gives whenever it is met. *)
Ltac script_with Hn :=
  repeat (progress (script; rewrite ?Hn)).

Section Rules.

Variable s : Store.
Variable h : Handle.

Lemma update_same (n : Node) : update s h n h = n.
Proof. unfold update. now rewrite Nat.eqb_refl. Qed.

Lemma bodyableText_removeBodyText (b : BodyableText) :
  bodyableText (removeBodyText b) = signatureOnly b.
Proof.
  unfold bodyableText, removeBodyText, signatureOnly.
  destruct b as [before [bodyText|]]; cbn; [apply app_nil_r | reflexivity].
Qed.

Lemma removeBodyText_idempotent (b : BodyableText) :
  removeBodyText (removeBodyText b) = removeBodyText b.
Proof. destruct b as [before [bodyText|]]; reflexivity. Qed.

Lemma formatFunctionDeclaration_runs (f : BodyableText) :
  s h = NFunction f ->
  formatFunctionDeclaration h s =
  inr (signatureOf s (NFunction f), update s h (strip (NFunction f))).
Proof.
  intros Hn.
  unfold formatFunctionDeclaration. script_with Hn.
  rewrite update_same. cbn [nodeText signatureOf strip].
  now rewrite bodyableText_removeBodyText.
Qed.

Lemma formatVariableDeclaration_runs (v : VariableDeclaration) :
  s h = NVariable v ->
  formatVariableDeclaration h s = inr (signatureOf s (NVariable v), s).
Proof.
  intros Hn. unfold formatVariableDeclaration. now script_with Hn.
Qed.

Lemma formatTypeAliasDeclaration_runs (text : jsstring) :
  s h = NTypeAlias text ->
  formatTypeAliasDeclaration h s = inr (signatureOf s (NTypeAlias text), s).
Proof.
  intros Hn. unfold formatTypeAliasDeclaration. now script_with Hn.
Qed.

Lemma formatEnumDeclaration_runs (text : jsstring) :
  s h = NEnum text ->
  formatEnumDeclaration h s = inr (signatureOf s (NEnum text), s).
Proof.
  intros Hn. unfold formatEnumDeclaration. now script_with Hn.
Qed.

(** The texts the class rule keeps: the public methods, bodies removed. *)
Lemma filterBoolean_formatMethodText (methods : list MethodDeclaration) :
  filterBoolean (map fst (map formatMethodText methods)) =
  filter truthy
    (map (fun m => signatureOnly (methodText m)) (filter isPublic methods)).
Proof.
  induction methods as [|m rest IH]; [reflexivity|].
  cbn [map filter]. unfold formatMethodText at 1, getScope.
  unfold isPublic at 1.
  destruct (scopeModifier m) as [[| |]|];
    cbn [fst filterBoolean map filter methodText];
    rewrite ?bodyableText_removeBodyText, IH; reflexivity.
Qed.

Lemma filter_truthy_all (texts : list jsstring) :
  Forall (fun t => truthy t = true) texts -> filter truthy texts = texts.
Proof.
  induction 1 as [|t rest Ht _ IH]; [reflexivity|].
  cbn. now rewrite Ht, IH.
Qed.

Lemma classBody_ends (c : ClassDeclaration) :
  exists front, classBody c = front ++ js "}".
Proof.
  unfold classBody. cbv zeta.
  match goal with
  | |- context [truthy ?t] => set (methodsText := t); destruct (truthy methodsText)
  end.
  - exists (js " {" ++ CRLF ++ methodsText ++ CRLF).
    now rewrite <- !app_assoc.
  - now exists (js " { ").
Qed.

Lemma trim_class_signature (c : ClassDeclaration) :
  trim (classHeader c ++ classBody c) = classHeader c ++ classBody c.
Proof.
  destruct (classBody_ends c) as [front ->].
  rewrite app_assoc.
  apply (trim_solid_end (classHeader c ++ front));
    unfold classHeader; cbv zeta; rewrite <- ?app_assoc;
    [reflexivity | discriminate | reflexivity].
Qed.

Lemma formatClassDeclaration_runs (c : ClassDeclaration) :
  s h = NClass c ->
  formatClassDeclaration h s =
  inr (signatureOf s (NClass c), update s h (strip (NClass c))).
Proof.
  intros Hn.
  unfold formatClassDeclaration. script_with Hn.
  cbn [signatureOf strip]. unfold stripMethod.
  rewrite (map_map formatMethodText snd).
  do 2 f_equal.
  rewrite filterBoolean_formatMethodText.
  rewrite <- trim_class_signature. f_equal.
  unfold classHeader, classBody, typeParameterClause. cbv zeta.
  set (A := join (js ", ") (map _ (class_typeParameters c))).
  set (B := removeDoubleSpacesAndLineBreaks _).
  set (C := join (js ", ") (map _ (class_implements c))).
  set (D := join CRLF _).
  destruct (truthy A), (truthy B), (truthy C), (truthy D);
    rewrite <- ?app_assoc, ?app_nil_r; reflexivity.
Qed.

Lemma mapM_getNode (handles : list Handle) :
  mapM getNode handles s = inr (map s handles, s).
Proof.
  induction handles as [|b rest IH]; [reflexivity|].
  cbn [mapM map]. unfold bind at 1. unfold getNode at 1.
  unfold bind at 1. now rewrite IH.
Qed.

Lemma fold_left_concat {A} (sections : list (list A)) (acc : list A) :
  fold_left (fun props prop => props ++ prop) sections acc =
  acc ++ List.concat sections.
Proof.
  revert acc. induction sections as [|x rest IH]; intros acc; cbn.
  - now rewrite app_nil_r.
  - now rewrite IH, app_assoc.
Qed.

Lemma formatInterfaceDeclaration_runs (i : InterfaceDeclaration) :
  s h = NInterface i ->
  formatInterfaceDeclaration h s = inr (signatureOf s (NInterface i), s).
Proof.
  intros Hn.
  unfold formatInterfaceDeclaration. script_with Hn.
  rewrite mapM_getNode. script. do 2 f_equal.
  rewrite fold_left_concat. cbn [app signatureOf].
  fold (interfaceLines s i).
  unfold interfaceHeader, interfaceBody, typeParameterClause. cbv zeta.
  set (A := join (js ", ") _).
  set (P := join CRLF _).
  destruct (truthy A), (truthy P);
    rewrite <- ?app_assoc, ?app_nil_r; reflexivity.
Qed.

(** The rule the table gives for the kind of the node, or the fallback. *)
Lemma formatOne_dispatch :
  formatOne h s =
  match s h with
  | NClass _ => formatClassDeclaration h s
  | NFunction _ => formatFunctionDeclaration h s
  | NVariable _ => formatVariableDeclaration h s
  | NInterface _ => formatInterfaceDeclaration h s
  | NTypeAlias _ => formatTypeAliasDeclaration h s
  | NEnum _ => formatEnumDeclaration h s
  | NOther _ text => inr (text, s)
  end.
Proof.
  unfold formatOne. unfold bind at 1. unfold getNode at 1.
  destruct (s h) as [c|f|v|i|text|text|k text] eqn:Hn;
    try reflexivity.
  destruct k; cbn; unfold getText; script; now rewrite Hn.
Qed.

(** The callback of [declarations.map] always returns: the signature of the
    node, in a store where that node, and no other, is stripped. *)
Lemma formatOne_runs :
  formatOne h s = inr (signatureOf s (s h), update s h (strip (s h))) \/
  formatOne h s = inr (signatureOf s (s h), s) /\ strip (s h) = s h.
Proof.
  rewrite formatOne_dispatch.
  destruct (s h) as [c|f|v|i|text|text|k text] eqn:Hn.
  - left. now apply formatClassDeclaration_runs.
  - left. now apply formatFunctionDeclaration_runs.
  - right. split; [now apply formatVariableDeclaration_runs | reflexivity].
  - right. split; [now apply formatInterfaceDeclaration_runs | reflexivity].
  - right. split; [now apply formatTypeAliasDeclaration_runs | reflexivity].
  - right. split; [now apply formatEnumDeclaration_runs | reflexivity].
  - right. split; reflexivity.
Qed.

End Rules.

(** ** Runs of the assembler in the store

    Formatting writes to the store, so the declarations of a file are not
    formatted in the store the run started with.  In the store the writes
    only remove bodies of the node formatted, and the lemmas of this
    section compute a whole run from the starting store.  They are about
    the store, in which nodes do not overlap, and serve to establish what
    a run returns; the theorems built on them keep to conclusions that do
    not rest on that. *)

Section Stability.

Lemma stripMethod_idempotent (m : MethodDeclaration) :
  stripMethod (stripMethod m) = stripMethod m.
Proof.
  unfold stripMethod, formatMethodText, getScope.
  destruct m as [[[| |]|] text]; cbn; rewrite ?removeBodyText_idempotent;
    reflexivity.
Qed.

Lemma signatureOnly_removeBodyText (b : BodyableText) :
  signatureOnly (removeBodyText b) = signatureOnly b.
Proof.
  destruct b as [before [bodyText|]]; cbn; [apply app_nil_r | reflexivity].
Qed.

Lemma isPublic_stripMethod (m : MethodDeclaration) :
  isPublic (stripMethod m) = isPublic m.
Proof.
  unfold stripMethod, formatMethodText, getScope, isPublic.
  destruct m as [[[| |]|] text]; reflexivity.
Qed.

Lemma signatureOnly_stripMethod (m : MethodDeclaration) :
  signatureOnly (methodText (stripMethod m)) = signatureOnly (methodText m).
Proof.
  unfold stripMethod, formatMethodText, getScope.
  destruct m as [[[| |]|] text]; cbn [snd methodText scopeModifier];
    rewrite ?signatureOnly_removeBodyText; reflexivity.
Qed.

Lemma public_lines_strip (methods : list MethodDeclaration) :
  map (fun m => signatureOnly (methodText m))
      (filter isPublic (map stripMethod methods)) =
  map (fun m => signatureOnly (methodText m)) (filter isPublic methods).
Proof.
  induction methods as [|m rest IH]; [reflexivity|].
  cbn [map filter]. rewrite isPublic_stripMethod.
  destruct (isPublic m); cbn [map];
    rewrite ?signatureOnly_stripMethod, IH; reflexivity.
Qed.

Lemma strip_idempotent (n : Node) : strip (strip n) = strip n.
Proof.
  destruct n as [c|f| | | | |]; cbn; try reflexivity.
  - f_equal. f_equal. rewrite map_map.
    apply map_ext. intros m. apply stripMethod_idempotent.
  - now rewrite removeBodyText_idempotent.
Qed.

Lemma getKindName_strip (n : Node) : getKindName (strip n) = getKindName n.
Proof. destruct n; reflexivity. Qed.

Lemma inheritedSection_strip (n : Node) :
  inheritedSection (strip n) = inheritedSection n.
Proof. destruct n; reflexivity. Qed.

Lemma signatureOf_strip (s : Store) (n : Node) :
  signatureOf s (strip n) = signatureOf s n.
Proof.
  destruct n as [c|f| | | | |]; cbn [strip signatureOf]; try reflexivity.
  - unfold classBody, classHeader.
    cbn [class_methods class_name class_typeParameters class_extends
         class_implements].
    now rewrite public_lines_strip.
  - now rewrite signatureOnly_removeBodyText.
Qed.

Lemma stripped_refl (s : Store) : stripped s s.
Proof. intros h. now left. Qed.

Lemma stripped_trans (s1 s2 s3 : Store) :
  stripped s1 s2 -> stripped s2 s3 -> stripped s1 s3.
Proof.
  intros H12 H23 h.
  destruct (H23 h) as [-> | ->], (H12 h) as [-> | ->]; auto.
  right. apply strip_idempotent.
Qed.

Lemma stripped_update (s : Store) (d : Handle) :
  stripped s (update s d (strip (s d))).
Proof.
  intros h. unfold update. destruct (Nat.eqb_spec h d) as [->|]; auto.
Qed.

Lemma interfaceLines_stripped (s s' : Store) (i : InterfaceDeclaration) :
  stripped s s' -> interfaceLines s' i = interfaceLines s i.
Proof.
  intros Hss. unfold interfaceLines. f_equal. f_equal.
  rewrite !map_map. apply map_ext. intros b.
  destruct (Hss b) as [-> | ->]; [reflexivity | apply inheritedSection_strip].
Qed.

Lemma signatureOf_stripped (s s' : Store) (d : Handle) :
  stripped s s' -> signatureOf s' (s' d) = signatureOf s (s d).
Proof.
  intros Hss.
  assert (Hstore : forall n, signatureOf s' n = signatureOf s n).
  { intros [ | | |i| | | ]; cbn [signatureOf]; try reflexivity.
    unfold interfaceBody. now rewrite (interfaceLines_stripped s s' i Hss). }
  rewrite Hstore.
  destruct (Hss d) as [-> | ->]; [reflexivity | apply signatureOf_strip].
Qed.

Lemma getKindName_stripped (s s' : Store) (d : Handle) :
  stripped s s' -> getKindName (s' d) = getKindName (s d).
Proof.
  intros Hss. destruct (Hss d) as [-> | ->];
    [reflexivity | apply getKindName_strip].
Qed.

(** One formatting step, with the store it leaves. *)
Lemma formatOne_step (s : Store) (d : Handle) :
  exists s', formatOne d s = inr (signatureOf s (s d), s') /\ stripped s s'.
Proof.
  destruct (formatOne_runs s d) as [H | [H _]].
  - eexists. split; [exact H | apply stripped_update].
  - eexists. split; [exact H | apply stripped_refl].
Qed.

Lemma mapM_formatOne (declarations : list Handle) (s : Store) :
  exists s',
    mapM formatOne declarations s =
      inr (map (fun d => signatureOf s (s d)) declarations, s')
    /\ stripped s s'.
Proof.
  revert s. induction declarations as [|d rest IH]; intros s.
  - exists s. split; [reflexivity | apply stripped_refl].
  - destruct (formatOne_step s d) as [s1 [Hd H1]].
    destruct (IH s1) as [s2 [Hrest H2]].
    exists s2. split; [|now apply stripped_trans with s1].
    cbn [mapM map]. unfold bind at 1. rewrite Hd.
    unfold bind at 1. rewrite Hrest. unfold ret. do 3 f_equal.
    apply map_ext. intros d'. now apply signatureOf_stripped.
Qed.

Lemma pushExports_runs (module : jsstring)
    (entries : list (jsstring * list Handle)) :
  Forall (fun entry => snd entry <> []) entries ->
  forall (fileOutput : list Output.t) (s : Store),
  exists s',
    pushExports module entries fileOutput s =
      inr (fileOutput ++ map (recordOf s module) entries, s')
    /\ stripped s s'.
Proof.
  induction 1 as [|[key declarations] rest Hne _ IH]; intros fileOutput s.
  - exists s. cbn. rewrite app_nil_r. split; [reflexivity | apply stripped_refl].
  - cbn [snd] in Hne. destruct declarations as [|d0 more]; [congruence|].
    destruct (mapM_formatOne (d0 :: more) s) as [s1 [Hsigs H1]].
    destruct (IH (fileOutput ++ [recordOf s module (key, d0 :: more)]) s1)
      as [s2 [Hrest H2]].
    exists s2. split; [|now apply stripped_trans with s1].
    cbn [pushExports firstKindName]. script. rewrite Hsigs.
    change (pushExports module rest
              (fileOutput ++ [recordOf s module (key, d0 :: more)]) s1 =
            inr (fileOutput
                 ++ map (recordOf s module) ((key, d0 :: more) :: rest), s2)).
    rewrite Hrest.
    rewrite <- app_assoc. cbn [app map]. do 4 f_equal.
    apply map_ext_in. intros [key' ds'] _. unfold recordOf. cbn [fst snd].
    f_equal.
    + destruct ds' as [|d' ?]; [reflexivity|]. now apply getKindName_stripped.
    + apply map_ext. intros d'. now apply signatureOf_stripped.
Qed.

Lemma recordOf_stripped (s s' : Store) (module : jsstring)
    (entries : list (jsstring * list Handle)) :
  stripped s s' ->
  map (recordOf s' module) entries = map (recordOf s module) entries.
Proof.
  intros Hss. apply map_ext. intros [key declarations].
  unfold recordOf. cbn [fst snd]. f_equal.
  - destruct declarations as [|d0 ?]; [reflexivity|].
    now apply getKindName_stripped.
  - apply map_ext. intros d. now apply signatureOf_stripped.
Qed.

Lemma generateApiForFile_runs (file : SourceFileHandle) (s : Store) :
  Forall (fun entry => snd entry <> []) (exportedDeclarations file) ->
  exists s',
    generateApiForFile file s = inr (recordsOf s file, s') /\ stripped s s'.
Proof.
  intros Hne. unfold generateApiForFile. cbv zeta.
  destruct (pushExports_runs (directoryBaseName file) _ Hne [] s)
    as [s' [Hrun Hss]].
  exists s'. split; [exact Hrun | exact Hss].
Qed.

Lemma mapM_generateApiForFile (files : list SourceFileHandle) :
  Forall (fun file =>
            Forall (fun entry => snd entry <> []) (exportedDeclarations file))
         files ->
  forall s, exists s',
    mapM generateApiForFile files s = inr (map (recordsOf s) files, s')
    /\ stripped s s'.
Proof.
  induction 1 as [|file rest Hne _ IH]; intros s.
  - exists s. split; [reflexivity | apply stripped_refl].
  - destruct (generateApiForFile_runs file s Hne) as [s1 [Hfile H1]].
    destruct (IH s1) as [s2 [Hrest H2]].
    exists s2. split; [|now apply stripped_trans with s1].
    cbn [mapM map]. unfold bind at 1. rewrite Hfile.
    unfold bind at 1. rewrite Hrest. unfold ret. do 3 f_equal.
    apply map_ext. intros file'. unfold recordsOf.
    now apply recordOf_stripped.
Qed.

Lemma generateApi_runs (files : list SourceFileHandle) (s : Store) :
  Forall (fun file =>
            Forall (fun entry => snd entry <> []) (exportedDeclarations file))
         files ->
  run (generateApi files) s = inr (List.concat (map (recordsOf s) files)).
Proof.
  intros Hne. destruct (mapM_generateApiForFile files Hne s) as [s' [Hrun _]].
  unfold run, generateApi. unfold bind. rewrite Hrun. unfold ret.
  now rewrite fold_left_concat.
Qed.

(** Without the assumption on the map, the only way out of the loop other
    than its end is the TypeError of an empty array of declarations. *)
Lemma pushExports_outcome (module : jsstring)
    (entries : list (jsstring * list Handle)) :
  forall (fileOutput : list Output.t) (s : Store),
    (exists out s', pushExports module entries fileOutput s = inr (out, s'))
    \/ pushExports module entries fileOutput s = inl TypeError.
Proof.
  induction entries as [|[key declarations] rest IH]; intros fileOutput s.
  - left. now exists fileOutput, s.
  - destruct declarations as [|d0 more]; [now right|].
    destruct (mapM_formatOne (d0 :: more) s) as [s1 [Hsigs _]].
    cbn [pushExports firstKindName]. script. rewrite Hsigs. apply IH.
Qed.

Lemma mapM_generateApiForFile_outcome (files : list SourceFileHandle) :
  forall s,
    (exists out s', mapM generateApiForFile files s = inr (out, s'))
    \/ mapM generateApiForFile files s = inl TypeError.
Proof.
  induction files as [|file rest IH]; intros s.
  - left. now exists [], s.
  - assert (E : mapM generateApiForFile (file :: rest) s =
                 match pushExports (directoryBaseName file)
                         (exportedDeclarations file) [] s with
                 | inl e => inl e
                 | inr (out, s1) =>
                     match mapM generateApiForFile rest s1 with
                     | inl e => inl e
                     | inr (outs, s2) => inr (out :: outs, s2)
                     end
                 end) by reflexivity.
    rewrite E. clear E.
    destruct (pushExports_outcome (directoryBaseName file)
                (exportedDeclarations file) [] s) as [[out [s1 Hfile]] | Hfile];
      rewrite Hfile; [|now right].
    destruct (IH s1) as [[outs [s2 Hrest]] | Hrest]; rewrite Hrest;
      [left | now right].
    now exists (out :: outs), s2.
Qed.

End Stability.

(** ** The properties of the specification *)

Section Scenario.

(** C1, as amended.  For the module [widgets] whose entry file exports
    [export function add(a: number, b: number): number { return a+b; }], the
    pipeline produces exactly the record with module [widgets], api [add],
    kind [FunctionDeclaration] and the one signature
    [add(a: number, b: number): number;]: the body is removed and the whole
    prefix [export function] is stripped, so the signature begins with the
    name of the function. *)
Theorem widgets_add_record (s : Store) (h : Handle) :
  s h = NFunction addDeclaration ->
  run (generateApi [widgets h]) s =
  inr [ mkRecord "widgets" "add" "FunctionDeclaration"
          [js "add(a: number, b: number): number;"] ].
Proof.
  intros Hn. rewrite generateApi_runs.
  - unfold recordsOf, recordOf. cbn [map List.concat widgets app fst snd
      directoryBaseName exportedDeclarations].
    rewrite Hn. reflexivity.
  - repeat constructor. discriminate.
Qed.

Lemma widgets_add_record_witness :
  widgetsStore 0 = NFunction addDeclaration /\
  run (generateApi [widgets 0]) widgetsStore =
  inr [ mkRecord "widgets" "add" "FunctionDeclaration"
          [js "add(a: number, b: number): number;"] ].
Proof.
  split; [reflexivity | apply (widgets_add_record widgetsStore 0); reflexivity].
Defined.

(** C1 as stated fails: on that input the signature of the record is not
    [function add(a: number, b: number): number;]. *)
Lemma exported_add_loses_function_keyword :
  run (generateApi [widgets 0]) widgetsStore <>
  inr [ mkRecord "widgets" "add" "FunctionDeclaration"
          [js "function add(a: number, b: number): number;"] ].
Proof. vm_compute. intros H. discriminate H. Qed.

(** When the declaration carries no [export] keyword, nothing is stripped
    in front and the signature keeps the keyword [function]. *)
Lemma plain_add_keeps_function_keyword (s : Store) (h : Handle) :
  s h = NFunction addDeclarationPlain ->
  run (generateApi [widgets h]) s =
  inr [ mkRecord "widgets" "add" "FunctionDeclaration"
          [js "function add(a: number, b: number): number;"] ].
Proof.
  intros Hn. rewrite generateApi_runs.
  - unfold recordsOf, recordOf. cbn [map List.concat widgets app fst snd
      directoryBaseName exportedDeclarations].
    rewrite Hn. reflexivity.
  - repeat constructor. discriminate.
Qed.

End Scenario.

Section Whitespace.



(** A white-space unit standing alone is not part of any match: a single
    line feed between two tokens stays in the text. *)
Example lone_line_feed_kept :
  removeDoubleSpacesAndLineBreaks (js "f(a," ++ [LF] ++ js "b)")
  = js "f(a," ++ [LF] ++ js "b)".
Proof. reflexivity. Qed.


End Whitespace.

Section Assembler.

Lemma Forall_concat {A} (P : A -> Prop) (ls : list (list A)) :
  Forall (Forall P) ls -> Forall P (List.concat ls).
Proof.
  induction 1 as [|l rest Hl _ IH]; cbn; [constructor|].
  apply Forall_app. now split.
Qed.

(** C3.  Whatever the kinds of the declarations, the assembler emits one
    record for every exported name of every module, in order, and the
    signatures of a record are never empty; a declaration of a kind the
    table does not know is formatted as its raw text. *)
Theorem one_record_per_export (files : list SourceFileHandle) (s : Store) :
  Forall declared files ->
  exists output,
    run (generateApi files) s = inr output /\
    map (fun r => (Output.module r, Output.api r)) output =
      flat_map (fun file => map (fun entry => (directoryBaseName file, fst entry))
                                (exportedDeclarations file)) files /\
    Forall (fun r => Output.signatures r <> []) output /\
    (forall d k text,
       s d = NOther k text -> run (formatOne d) s = inr text).
Proof.
  intros Hdeclared.
  exists (List.concat (map (recordsOf s) files)).
  split; [now apply generateApi_runs|]. split; [|split].
  - clear Hdeclared. induction files as [|file rest IH]; [reflexivity|].
    cbn [map List.concat flat_map]. rewrite map_app, IH. f_equal.
    unfold recordsOf. rewrite map_map. reflexivity.
  - apply Forall_concat. apply Forall_map.
    eapply Forall_impl; [|exact Hdeclared].
    intros file Hfile. unfold recordsOf. apply Forall_map.
    eapply Forall_impl; [|exact Hfile].
    intros [key declarations] Hne. cbn [recordOf Output.signatures snd] in *.
    destruct declarations; [congruence | discriminate].
  - intros d k text Hn. unfold run.
    rewrite formatOne_dispatch, Hn. reflexivity.
Qed.

Lemma one_record_per_export_witness :
  Forall declared projectFiles /\
  exists output,
    run (generateApi projectFiles) projectStore = inr output /\
    map (fun r => (Output.module r, Output.api r)) output =
      flat_map (fun file => map (fun entry => (directoryBaseName file, fst entry))
                                (exportedDeclarations file)) projectFiles /\
    Forall (fun r => Output.signatures r <> []) output /\
    (forall d k text,
       projectStore d = NOther k text ->
       run (formatOne d) projectStore = inr text).
Proof.
  assert (H : Forall declared projectFiles).
  { repeat constructor; discriminate. }
  split; [exact H | exact (one_record_per_export projectFiles projectStore H)].
Defined.

Lemma Forall2_map_same {A B} (R : A -> B -> Prop) (f : A -> B) (l : list A) :
  (forall a, In a l -> R a (f a)) -> Forall2 R l (map f l).
Proof.
  induction l as [|a rest IH]; intros H; cbn; constructor.
  - apply H. now left.
  - apply IH. intros a' Hin. apply H. now right.
Qed.

Lemma evolved_refl (s : Store) : evolved s s.
Proof.
  intros h. destruct (s h); cbn; repeat split; reflexivity.
Qed.

(** The states the store itself goes through are among them. *)
Lemma stripped_evolved (s s' : Store) : stripped s s' -> evolved s s'.
Proof.
  intros Hss h. destruct (Hss h) as [-> | ->].
  - apply evolved_refl.
  - destruct (s h) as [c|f| | | | |]; cbn; repeat split; try reflexivity.
    apply signatureOnly_removeBodyText.
Qed.




(** Two overloads with the same signature give two equal entries. *)
Example effects_records :
  run (generateApiForFile effectsFile) projectStore =
  inr [ mkRecord "effects" "ROOT" "VariableDeclaration"
          [js "const ROOT: InjectionToken<string>"];
        mkRecord "effects" "noop" "FunctionDeclaration"
          [js "noop(): void;"; js "noop(): void;"] ].
Proof. reflexivity. Qed.

End Assembler.

Section Interfaces.

Lemma interfaceBody_lines (s : Store) (i : InterfaceDeclaration)
    (line : jsstring) :
  In line (interfaceLines s i) -> truthy line = true ->
  interfaceBody s i =
  js " {" ++ CRLF ++ join CRLF (interfaceLines s i) ++ CRLF ++ js "}".
Proof.
  intros Hin Hline. unfold interfaceBody. cbv zeta.
  now rewrite (join_truthy CRLF _ line Hin Hline).
Qed.

(** C5.  For an interface B whose only base is the interface A, the
    signature lists the properties of B, then an empty line, the label
    [// inherited from A] and the properties of A.  Nothing else of the
    store is read: the bases of A, Root among them, leave no trace. *)
Theorem interface_inherits_one_level (s : Store) (hB hA : Handle)
    (B A : InterfaceDeclaration) :
  s hB = NInterface B ->
  iface_baseDeclarations B = [hA] ->
  s hA = NInterface A ->
  run (formatInterfaceDeclaration hB) s =
    inr (interfaceHeader B ++ js " {" ++ CRLF
         ++ join CRLF
              (map removeDoubleSpacesAndLineBreaks (iface_properties B)
               ++ [ [] ; js "// inherited from " ++ iface_name A ]
               ++ map removeDoubleSpacesAndLineBreaks (iface_properties A))
         ++ CRLF ++ js "}") /\
  (forall s' : Store,
     s' hB = s hB -> s' hA = s hA ->
     run (formatInterfaceDeclaration hB) s' =
     run (formatInterfaceDeclaration hB) s).
Proof.
  intros HB Hbases HA.
  assert (Hrun : forall s0 : Store,
    s0 hB = NInterface B -> s0 hA = NInterface A ->
    run (formatInterfaceDeclaration hB) s0 =
    inr (interfaceHeader B ++ js " {" ++ CRLF
         ++ join CRLF
              (map removeDoubleSpacesAndLineBreaks (iface_properties B)
               ++ [ [] ; js "// inherited from " ++ iface_name A ]
               ++ map removeDoubleSpacesAndLineBreaks (iface_properties A))
         ++ CRLF ++ js "}")).
  { intros s0 H0B H0A. unfold run.
    rewrite (formatInterfaceDeclaration_runs s0 hB B H0B).
    cbn [signatureOf]. do 2 f_equal.
    assert (Hlines : interfaceLines s0 B =
      map removeDoubleSpacesAndLineBreaks (iface_properties B)
      ++ [ [] ; js "// inherited from " ++ iface_name A ]
      ++ map removeDoubleSpacesAndLineBreaks (iface_properties A)).
    { unfold interfaceLines. rewrite Hbases. cbn [map List.concat].
      rewrite H0A. cbn [inheritedSection]. now rewrite app_nil_r. }
    rewrite (interfaceBody_lines s0 B (js "// inherited from " ++ iface_name A)).
    - now rewrite Hlines.
    - rewrite Hlines. apply in_or_app. right. right. now left.
    - reflexivity. }
  split; [now apply Hrun|].
  intros s' HB' HA'. rewrite (Hrun s HB HA).
  apply Hrun; congruence.
Qed.

Lemma interface_inherits_one_level_witness :
  shapesStore 2 = NInterface interfaceB /\
  iface_baseDeclarations interfaceB = [1] /\
  shapesStore 1 = NInterface interfaceA /\
  run (formatInterfaceDeclaration 2) shapesStore =
    inr (js "interface B<T> {" ++ CRLF
         ++ js "b: T;" ++ CRLF
         ++ CRLF
         ++ js "// inherited from A" ++ CRLF
         ++ js "a: number;" ++ CRLF
         ++ js "}").
Proof.
  split; [reflexivity|]. split; [reflexivity|]. split; [reflexivity|].
  exact (proj1 (interface_inherits_one_level shapesStore 2 1
                  interfaceB interfaceA eq_refl eq_refl eq_refl)).
Defined.

End Interfaces.

Section EmptyShapes.

Lemma no_public_method_lines (methods : list MethodDeclaration) :
  Forall (fun m => isPublic m = false) methods -> filter isPublic methods = [].
Proof.
  induction 1 as [|m rest Hm _ IH]; [reflexivity|].
  cbn. now rewrite Hm.
Qed.

Lemma no_inherited_section (s : Store) (bases : list Handle) :
  Forall (fun b => isInterfaceDeclaration (s b) = false) bases ->
  List.concat (map inheritedSection (map s bases)) = [].
Proof.
  induction 1 as [|b rest Hb _ IH]; [reflexivity|].
  cbn [map List.concat]. rewrite IH.
  destruct (s b); try reflexivity. discriminate Hb.
Qed.

(** C6, as amended.  A class without a public method has the body [{ }];
    an interface without a property of its own that extends no interface
    has the body [{}]; the two signatures differ. *)
Theorem empty_shapes_distinct (s : Store) (hC hI : Handle)
    (c : ClassDeclaration) (i : InterfaceDeclaration) :
  s hC = NClass c ->
  Forall (fun m => isPublic m = false) (class_methods c) ->
  s hI = NInterface i ->
  iface_properties i = [] ->
  Forall (fun b => isInterfaceDeclaration (s b) = false)
         (iface_baseDeclarations i) ->
  run (formatClassDeclaration hC) s = inr (classHeader c ++ js " { }") /\
  run (formatInterfaceDeclaration hI) s = inr (interfaceHeader i ++ js " {}") /\
  run (formatClassDeclaration hC) s <> run (formatInterfaceDeclaration hI) s.
Proof.
  intros HC Hprivate HI Hown Hbases.
  assert (Hclass : run (formatClassDeclaration hC) s
                   = inr (classHeader c ++ js " { }")).
  { unfold run. rewrite (formatClassDeclaration_runs s hC c HC).
    cbn [signatureOf]. unfold classBody.
    now rewrite (no_public_method_lines _ Hprivate). }
  assert (Hiface : run (formatInterfaceDeclaration hI) s
                   = inr (interfaceHeader i ++ js " {}")).
  { unfold run. rewrite (formatInterfaceDeclaration_runs s hI i HI).
    cbn [signatureOf]. unfold interfaceBody, interfaceLines.
    now rewrite Hown, (no_inherited_section s _ Hbases). }
  split; [exact Hclass|]. split; [exact Hiface|].
  rewrite Hclass, Hiface. unfold classHeader, interfaceHeader.
  intros Heq. rewrite <- ?app_assoc in Heq.
  injection Heq as Hhead. discriminate Hhead.
Qed.

Lemma empty_shapes_distinct_witness :
  emptyShapesStore 2 = NClass sealedClass /\
  Forall (fun m => isPublic m = false) (class_methods sealedClass) /\
  emptyShapesStore 0 = NInterface markerInterface /\
  iface_properties markerInterface = [] /\
  run (formatClassDeclaration 2) emptyShapesStore = inr (js "class Sealed { }") /\
  run (formatInterfaceDeclaration 0) emptyShapesStore
    = inr (js "interface Marker {}").
Proof.
  assert (Hprivate : Forall (fun m => isPublic m = false)
                            (class_methods sealedClass)).
  { repeat constructor. }
  split; [reflexivity|]. split; [exact Hprivate|].
  split; [reflexivity|]. split; [reflexivity|].
  destruct (empty_shapes_distinct emptyShapesStore 2 0 sealedClass
              markerInterface eq_refl Hprivate eq_refl eq_refl
              (Forall_nil _)) as [Hclass [Hiface _]].
  split; [exact Hclass | exact Hiface].
Defined.

(** C6 as stated fails: [Tagged] has no property of its own and inherits
    none, its base [Marker] having none either, yet its body is not [{}]:
    the label of the base is there. *)
Lemma empty_extending_interface_keeps_label :
  iface_properties taggedInterface = [] /\
  iface_baseDeclarations taggedInterface = [0] /\
  emptyShapesStore 0 = NInterface markerInterface /\
  iface_properties markerInterface = [] /\
  run (formatInterfaceDeclaration 1) emptyShapesStore =
    inr (js "interface Tagged {" ++ CRLF ++ CRLF
         ++ js "// inherited from Marker" ++ CRLF ++ js "}") /\
  run (formatInterfaceDeclaration 1) emptyShapesStore <>
    inr (js "interface Tagged {}").
Proof.
  repeat (split; [reflexivity|]).
  vm_compute. intros H. discriminate H.
Qed.

End EmptyShapes.

Section Classes.

Lemma public_lines_truthy (methods : list MethodDeclaration) :
  Forall (fun m => beforeBody (methodText m) <> []) methods ->
  Forall (fun t => truthy t = true)
         (map (fun m => signatureOnly (methodText m))
              (filter isPublic methods)).
Proof.
  intros H. apply Forall_map. apply Forall_forall. intros m Hin.
  apply filter_In in Hin. destruct Hin as [Hin _].
  rewrite Forall_forall in H. specialize (H m Hin).
  unfold signatureOnly. destruct (beforeBody (methodText m)); [congruence|].
  reflexivity.
Qed.

(** C7.  The body of a class signature holds the methods that are public,
    a method without a visibility keyword being public, and no other; each
    comes as its text before the body, closed by a semicolon where a body
    was removed, and the lines are joined by CR LF. *)
Theorem class_lists_public_methods (s : Store) (h : Handle)
    (c : ClassDeclaration) :
  s h = NClass c ->
  Forall (fun m => beforeBody (methodText m) <> []) (class_methods c) ->
  run (formatClassDeclaration h) s =
  inr (classHeader c ++
       match filter
               (fun m => match scopeModifier m with
                         | None | Some Public => true
                         | Some Protected | Some Private => false
                         end)
               (class_methods c)
       with
       | [] => js " { }"
       | publicMethods =>
           js " {" ++ CRLF
           ++ join CRLF
                (map (fun m =>
                        beforeBody (methodText m)
                        ++ match body (methodText m) with
                           | Some _ => js ";"
                           | None => []
                           end)
                     publicMethods)
           ++ CRLF ++ js "}"
       end).
Proof.
  intros Hn Htext. unfold run.
  rewrite (formatClassDeclaration_runs s h c Hn).
  cbn [signatureOf]. do 2 f_equal. unfold classBody. cbv zeta.
  rewrite (filter_truthy_all _ (public_lines_truthy _ Htext)).
  pose proof (public_lines_truthy _ Htext) as Hlines.
  fold isPublic. fold signatureOnly.
  change (fun m => beforeBody (methodText m)
                   ++ match body (methodText m) with
                      | Some _ => js ";"
                      | None => []
                      end)
    with (fun m => signatureOnly (methodText m)).
  destruct (filter isPublic (class_methods c)) as [|m rest]; [reflexivity|].
  rewrite (join_truthy CRLF _ (signatureOnly (methodText m))).
  - reflexivity.
  - now left.
  - now inversion Hlines.
Qed.

Lemma class_lists_public_methods_witness :
  serviceStore 0 = NClass serviceClass /\
  Forall (fun m => beforeBody (methodText m) <> []) (class_methods serviceClass) /\
  run (formatClassDeclaration 0) serviceStore =
  inr (js "class Service<T> extends Base<T> implements OnDestroy {" ++ CRLF
       ++ js "load(id: string): T;" ++ CRLF
       ++ js "public static create(): Service<any>;" ++ CRLF
       ++ js "}").
Proof.
  assert (Htext : Forall (fun m => beforeBody (methodText m) <> [])
                         (class_methods serviceClass)).
  { repeat constructor; discriminate. }
  split; [reflexivity|]. split; [exact Htext|].
  exact (class_lists_public_methods serviceStore 0 serviceClass eq_refl Htext).
Defined.

End Classes.

Section TypeAliases.

(** When the text of a type alias begins with [export], that keyword is the
    one removed, and the rest is kept as written, trimmed. *)
Lemma type_alias_leading_export (s : Store) (h : Handle) (rest : jsstring) :
  s h = NTypeAlias (js "export" ++ rest) ->
  run (formatTypeAliasDeclaration h) s = inr (trim rest).
Proof.
  intros Hn. unfold run.
  rewrite (formatTypeAliasDeclaration_runs s h _ Hn). cbn [signatureOf].
  now rewrite replace_at_start.
Qed.

(** C8 at a type alias exported by a separate export list, whose text has
    no leading [export]: the first [export] inside the text is removed, so
    the property [exportAll] comes out as [All]. *)
Theorem type_alias_inner_export_removed :
  run (formatTypeAliasDeclaration 0) cfgStore =
  inr (js "type Cfg = { All: boolean };").
Proof. reflexivity. Qed.

End TypeAliases.

Section Variables.

(** C9.  The signature of a variable is [const], its name, a colon and its
    resolved type; the text of the declarator, initializer included, and
    the keyword of the declaration have no part in it. *)
Theorem variable_signature (s : Store) (h : Handle) (v : VariableDeclaration) :
  s h = NVariable v ->
  run (formatVariableDeclaration h) s =
    inr (js "const " ++ var_name v ++ js ": " ++ var_typeText v) /\
  (forall (keyword : VariableDeclarationKind) (text : jsstring),
     run (formatVariableDeclaration h)
         (update s h (NVariable {| var_name := var_name v;
                                   var_typeText := var_typeText v;
                                   var_declarationKind := keyword;
                                   var_text := text |}))
     = run (formatVariableDeclaration h) s).
Proof.
  intros Hn. unfold run.
  rewrite (formatVariableDeclaration_runs s h v Hn).
  split; [reflexivity|].
  intros keyword text.
  now rewrite (formatVariableDeclaration_runs _ h _ (update_same s h _)).
Qed.

Lemma variable_signature_witness :
  retriesStore 0 = NVariable retriesVariable /\
  run (formatVariableDeclaration 0) retriesStore
    = inr (js "const retries: number").
Proof.
  split; [reflexivity|].
  exact (proj1 (variable_signature retriesStore 0 retriesVariable eq_refl)).
Defined.

End Variables.

Section KindMismatch.

Lemma formatOne_returns (s : Store) (d : Handle) :
  aborted (run (formatOne d) s) = false.
Proof.
  unfold run. destruct (formatOne_step s d) as [s' [-> _]]. reflexivity.
Qed.

(** C10.  Each rule throws its own error exactly on the declarations that
    are not of its kind; the callback that picks the rule by the kind name
    of the declaration never throws; and no run of the assembler ends in
    an [Error] of a rule. *)
Theorem kind_mismatch_unreachable :
  guards formatFunctionDeclaration isFunctionDeclaration
         "Declaration is not a function" /\
  guards formatClassDeclaration isClassDeclaration
         "Declaration is not a class" /\
  guards formatVariableDeclaration isVariableDeclaration
         "Declaration is not a variable" /\
  guards formatInterfaceDeclaration isInterfaceDeclaration
         "Declaration is not an interface" /\
  guards formatTypeAliasDeclaration isTypeAliasDeclaration
         "Declaration is not a type alias" /\
  guards formatEnumDeclaration isEnumDeclaration
         "Declaration is not an enum" /\
  (forall s d, aborted (run (formatOne d) s) = false) /\
  (forall files s message,
     run (generateApi files) s <> inl (Error message)).
Proof.
  assert (Hreturns : forall (rule : Handle -> M jsstring) s h sig s',
            rule h s = inr (sig, s') -> aborted (run (rule h) s) = false).
  { intros rule s h sig s' H. unfold run. now rewrite H. }
  repeat split.
  - destruct (s h) eqn:Hn; try discriminate;
      unfold run, formatFunctionDeclaration; script; now rewrite Hn.
  - destruct (s h) as [|f| | | | |] eqn:Hn; try discriminate. intros _.
    eapply Hreturns, formatFunctionDeclaration_runs, Hn.
  - destruct (s h) eqn:Hn; try discriminate;
      unfold run, formatClassDeclaration; script; now rewrite Hn.
  - destruct (s h) as [c| | | | | |] eqn:Hn; try discriminate. intros _.
    eapply Hreturns, formatClassDeclaration_runs, Hn.
  - destruct (s h) eqn:Hn; try discriminate;
      unfold run, formatVariableDeclaration; script; now rewrite Hn.
  - destruct (s h) as [| |v| | | |] eqn:Hn; try discriminate. intros _.
    eapply Hreturns, formatVariableDeclaration_runs, Hn.
  - destruct (s h) eqn:Hn; try discriminate;
      unfold run, formatInterfaceDeclaration; script; now rewrite Hn.
  - destruct (s h) as [| | |i| | |] eqn:Hn; try discriminate. intros _.
    eapply Hreturns, formatInterfaceDeclaration_runs, Hn.
  - destruct (s h) eqn:Hn; try discriminate;
      unfold run, formatTypeAliasDeclaration; script; now rewrite Hn.
  - destruct (s h) as [| | | |text| |] eqn:Hn; try discriminate. intros _.
    eapply Hreturns, formatTypeAliasDeclaration_runs, Hn.
  - destruct (s h) eqn:Hn; try discriminate;
      unfold run, formatEnumDeclaration; script; now rewrite Hn.
  - destruct (s h) as [| | | | |text|] eqn:Hn; try discriminate. intros _.
    eapply Hreturns, formatEnumDeclaration_runs, Hn.
  - apply formatOne_returns.
  - intros files s message. unfold run, generateApi, bind.
    destruct (mapM_generateApiForFile_outcome files s)
      as [[out [s' ->]] | ->]; discriminate.
Qed.

End KindMismatch.

(** ** The white-space helper, further *)

Section Collapsing.

Lemma replace_space_runs_fixed (text : jsstring) :
  adjacent_spaces text = false -> replace_space_runs [SP] false text = text.
Proof.
  induction text as [|c rest IH]; [reflexivity|].
  intros Hadj. apply adjacent_spaces_cons in Hadj.
  destruct Hadj as [Hrest Hhead]. cbn [replace_space_runs].
  destruct (is_space c) eqn:Hc.
  - destruct rest as [|c' rest']; [reflexivity|].
    destruct Hhead as [Hfalse | Hstart]; [discriminate|].
    cbn [starts_non_space] in Hstart. apply negb_true_iff in Hstart.
    rewrite Hstart. f_equal. now apply IH.
  - f_equal. now apply IH.
Qed.

(** X1.  Collapsing a text a second time changes nothing. *)
Theorem collapse_idempotent (text : jsstring) :
  removeDoubleSpacesAndLineBreaks (removeDoubleSpacesAndLineBreaks text)
  = removeDoubleSpacesAndLineBreaks text.
Proof.
  unfold removeDoubleSpacesAndLineBreaks at 1.
  apply replace_space_runs_fixed.
  apply removeDoubleSpacesAndLineBreaks_no_adjacent.
Qed.

(** X2.  The texts the helper leaves as they are are exactly those without two
    white-space characters in a row. *)
Theorem collapse_fixed_points (text : jsstring) :
  removeDoubleSpacesAndLineBreaks text = text <->
  adjacent_spaces text = false.
Proof.
  split.
  - intros Hfix. rewrite <- Hfix.
    apply removeDoubleSpacesAndLineBreaks_no_adjacent.
  - apply replace_space_runs_fixed.
Qed.

Lemma replace_space_runs_units (matched : bool) (text : jsstring) :
  non_space_units (replace_space_runs [SP] matched text)
  = non_space_units text.
Proof.
  revert matched. induction text as [|c rest IH]; intros matched;
    [reflexivity|].
  cbn [replace_space_runs]. unfold non_space_units in *.
  destruct (is_space c) eqn:Hc.
  - cbn [filter]. rewrite Hc. cbn [negb].
    destruct matched; [apply IH|].
    destruct rest as [|c' rest']; [cbn; now rewrite Hc|].
    destruct (is_space c') eqn:Hc'.
    + cbn [app filter]. change (is_space SP) with true. cbn [negb]. apply IH.
    + cbn [filter]. rewrite Hc. cbn [negb]. apply IH.
  - cbn [filter]. rewrite Hc. cbn [negb]. f_equal. apply IH.
Qed.

Lemma replace_space_runs_length (matched : bool) (text : jsstring) :
  List.length (replace_space_runs [SP] matched text) <= List.length text.
Proof.
  revert matched. induction text as [|c rest IH]; intros matched;
    [apply Nat.le_refl|].
  cbn [replace_space_runs].
  destruct (is_space c).
  - destruct matched.
    + specialize (IH true). cbn [List.length]. lia.
    + destruct rest as [|c' rest']; [apply Nat.le_refl|].
      destruct (is_space c').
      * specialize (IH true). cbn [app List.length] in *. lia.
      * specialize (IH false). cbn [List.length] in *. lia.
  - specialize (IH false). cbn [List.length]. lia.
Qed.

(** X3.  The helper only touches white space: what is not white space comes
    out unchanged and in order, and the text never grows. *)
Theorem collapse_keeps_tokens (text : jsstring) :
  non_space_units (removeDoubleSpacesAndLineBreaks text)
    = non_space_units text /\
  List.length (removeDoubleSpacesAndLineBreaks text) <= List.length text.
Proof.
  split; [apply replace_space_runs_units | apply replace_space_runs_length].
Qed.

Lemma replace_space_runs_skip (w rest : jsstring) :
  all_spaces w = true ->
  replace_space_runs [SP] true (w ++ rest)
  = replace_space_runs [SP] true rest.
Proof.
  induction w as [|c w IH]; [reflexivity|].
  cbn [all_spaces forallb app]. intros H. apply andb_true_iff in H.
  destruct H as [Hc Hw]. cbn [replace_space_runs]. rewrite Hc. now apply IH.
Qed.

Lemma replace_space_runs_resume (rest : jsstring) :
  starts_non_space rest = true ->
  replace_space_runs [SP] true rest = replace_space_runs [SP] false rest.
Proof.
  destruct rest as [|c rest]; [reflexivity|].
  cbn [starts_non_space]. intros Hc. apply negb_true_iff in Hc.
  cbn [replace_space_runs]. now rewrite Hc.
Qed.

Lemma replace_space_runs_run (w rest : jsstring) :
  all_spaces w = true -> 2 <= List.length w ->
  starts_non_space rest = true ->
  replace_space_runs [SP] false (w ++ rest)
  = SP :: replace_space_runs [SP] false rest.
Proof.
  intros Hw Hlen Hrest.
  destruct w as [|c1 [|c2 w]]; cbn [List.length] in Hlen; try lia.
  cbn [all_spaces forallb] in Hw.
  apply andb_true_iff in Hw. destruct Hw as [H1 Hw].
  apply andb_true_iff in Hw. destruct Hw as [H2 Hw].
  cbn [app replace_space_runs]. rewrite H1, H2. cbn [app]. f_equal.
  rewrite (replace_space_runs_skip w rest Hw).
  now apply replace_space_runs_resume.
Qed.

Lemma replace_space_runs_cut (matched : bool) (front : jsstring) (c : char)
    (rest : jsstring) :
  is_space c = false ->
  replace_space_runs [SP] matched (front ++ c :: rest)
  = replace_space_runs [SP] matched (front ++ [c])
    ++ replace_space_runs [SP] false rest.
Proof.
  intros Hc. revert matched.
  induction front as [|x front IH]; intros matched.
  - cbn [app replace_space_runs]. now rewrite Hc.
  - cbn [app replace_space_runs].
    destruct (is_space x).
    + destruct matched; [apply IH|].
      destruct front as [|y front'].
      * cbn [app]. rewrite Hc. cbn [app]. f_equal. apply (IH false).
      * cbn [app]. destruct (is_space y).
        -- cbn [app]. f_equal. apply (IH true).
        -- cbn [app]. f_equal. apply (IH false).
    + cbn [app]. f_equal. apply IH.
Qed.

(** X4.  A run of two or more white-space characters, spaces, tabs and line
    breaks alike, becomes one space, at the start of the text and after any
    token; the text on either side is collapsed on its own. *)
Theorem collapse_run (w rest : jsstring) :
  all_spaces w = true -> 2 <= List.length w ->
  starts_non_space rest = true ->
  removeDoubleSpacesAndLineBreaks (w ++ rest)
    = SP :: removeDoubleSpacesAndLineBreaks rest /\
  (forall (front : jsstring) (c : char),
     is_space c = false ->
     removeDoubleSpacesAndLineBreaks (front ++ c :: w ++ rest)
     = removeDoubleSpacesAndLineBreaks (front ++ [c])
       ++ SP :: removeDoubleSpacesAndLineBreaks rest).
Proof.
  intros Hw Hlen Hrest. unfold removeDoubleSpacesAndLineBreaks.
  split; [now apply replace_space_runs_run|].
  intros front c Hc.
  rewrite (replace_space_runs_cut false front c (w ++ rest) Hc).
  f_equal. now apply replace_space_runs_run.
Qed.

Lemma collapse_run_witness :
  all_spaces [SP; LF; SP; SP] = true /\
  2 <= List.length [SP; LF; SP; SP] /\
  starts_non_space (js "b: number)") = true /\
  removeDoubleSpacesAndLineBreaks
    (js "add(a: number," ++ [SP; LF; SP; SP] ++ js "b: number)")
  = js "add(a: number, b: number)".
Proof.
  split; [reflexivity|]. split; [cbn; lia|]. split; [reflexivity|].
  assert (Hlen : 2 <= List.length [SP; LF; SP; SP]) by (cbn; lia).
  exact (proj2 (collapse_run [SP; LF; SP; SP] (js "b: number)")
                  eq_refl Hlen eq_refl)
               (js "add(a: number") (N_of_ascii ",") eq_refl).
Defined.

End Collapsing.

(** ** The function and type-alias rules, further *)

Section Prefixes.

Lemma trimStart_starts (s : jsstring) :
  starts_non_space (trimStart s) = true.
Proof.
  induction s as [|c rest IH]; [reflexivity|].
  cbn [trimStart]. destruct (is_space c) eqn:Hc; [exact IH|].
  cbn [starts_non_space]. now rewrite Hc.
Qed.

Lemma trim_ends (s : jsstring) : starts_non_space (rev (trim s)) = true.
Proof.
  unfold trim, trimEnd. rewrite rev_involutive. apply trimStart_starts.
Qed.

Lemma trim_starts (s : jsstring) : starts_non_space (trim s) = true.
Proof.
  unfold trim. pose proof (trimStart_starts s) as Hstart.
  destruct (trimEnd_prefix (trimStart s)) as [dropped Hsplit].
  destruct (trimEnd (trimStart s)) as [|c kept]; [reflexivity|].
  rewrite Hsplit in Hstart. exact Hstart.
Qed.

Lemma replace_absent (pat rep text : jsstring) :
  occurs pat text = false -> replace pat rep text = text.
Proof.
  induction text as [|c rest IH]; cbn [occurs replace]; intros H;
    apply orb_false_iff in H; destruct H as [Hstart Hrest]; rewrite Hstart.
  - reflexivity.
  - f_equal. now apply IH.
Qed.

(** X5.  A function signature neither starts nor ends with white space. *)
Theorem function_signature_trimmed (s : Store) (h : Handle)
    (f : BodyableText) :
  s h = NFunction f ->
  exists sig,
    run (formatFunctionDeclaration h) s = inr sig /\
    starts_non_space sig = true /\
    starts_non_space (rev sig) = true.
Proof.
  intros Hn. unfold run. rewrite (formatFunctionDeclaration_runs s h f Hn).
  eexists. split; [reflexivity|]. cbn [signatureOf].
  split; [apply trim_starts | apply trim_ends].
Qed.

Lemma function_signature_trimmed_witness :
  widgetsStore 0 = NFunction addDeclaration /\
  exists sig,
    run (formatFunctionDeclaration 0) widgetsStore = inr sig /\
    starts_non_space sig = true /\
    starts_non_space (rev sig) = true.
Proof.
  split; [reflexivity|].
  exact (function_signature_trimmed widgetsStore 0 addDeclaration eq_refl).
Defined.

(** X6.  The body of a function leaves no trace: two functions that differ in
    their bodies only have the same signature, which is also that of the
    declaration written without a body and closed by a semicolon. *)
Theorem function_body_never_shown (s : Store) (h : Handle)
    (before body1 body2 : jsstring) :
  run (formatFunctionDeclaration h)
      (update s h (NFunction {| beforeBody := before; body := Some body1 |}))
  = run (formatFunctionDeclaration h)
        (update s h (NFunction {| beforeBody := before; body := Some body2 |}))
  /\
  run (formatFunctionDeclaration h)
      (update s h (NFunction {| beforeBody := before; body := Some body1 |}))
  = run (formatFunctionDeclaration h)
        (update s h (NFunction {| beforeBody := before ++ js ";";
                                  body := None |})).
Proof.
  assert (Hrun : forall f,
            run (formatFunctionDeclaration h) (update s h (NFunction f))
            = inr (signatureOf s (NFunction f))).
  { intros f. unfold run.
    now rewrite (formatFunctionDeclaration_runs _ h f (update_same s h _)). }
  rewrite !Hrun. cbn [signatureOf]. unfold signatureOnly.
  cbn [beforeBody body]. now rewrite app_nil_r.
Qed.

(** X7.  A function whose text does not hold [export function], as with
    [export default function] or [export async function], keeps all its
    keywords: the signature is its text without the body, collapsed and
    trimmed. *)
Theorem function_prefix_kept (s : Store) (h : Handle) (f : BodyableText) :
  s h = NFunction f ->
  occurs (js "export function") (signatureOnly f) = false ->
  run (formatFunctionDeclaration h) s =
  inr (trim (removeDoubleSpacesAndLineBreaks (signatureOnly f))).
Proof.
  intros Hn Habsent. unfold run.
  rewrite (formatFunctionDeclaration_runs s h f Hn). cbn [signatureOf].
  now rewrite (replace_absent _ _ _ Habsent).
Qed.

Lemma function_prefix_kept_witness :
  defaultNoopStore 0 = NFunction defaultNoop /\
  occurs (js "export function") (signatureOnly defaultNoop) = false /\
  run (formatFunctionDeclaration 0) defaultNoopStore =
  inr (js "export default function noop();").
Proof.
  split; [reflexivity|]. split; [reflexivity|].
  exact (function_prefix_kept defaultNoopStore 0 defaultNoop eq_refl eq_refl).
Defined.

(** X8.  A type alias whose text begins with [export] loses that keyword and
    nothing else; the rest is trimmed, its inner white space kept. *)
Theorem type_alias_export_stripped (s : Store) (h : Handle)
    (rest : jsstring) :
  s h = NTypeAlias (js "export" ++ rest) ->
  run (formatTypeAliasDeclaration h) s = inr (trim rest).
Proof.
  intros Hn. unfold run.
  rewrite (formatTypeAliasDeclaration_runs s h _ Hn). cbn [signatureOf].
  now rewrite replace_at_start.
Qed.

Lemma type_alias_export_stripped_witness :
  idAliasStore 0 = NTypeAlias (js "export" ++ js " type Id = string;") /\
  run (formatTypeAliasDeclaration 0) idAliasStore
  = inr (js "type Id = string;").
Proof.
  split; [reflexivity|].
  exact (type_alias_export_stripped idAliasStore 0
           (js " type Id = string;") eq_refl).
Defined.

(** X9.  A type alias whose text holds no [export] at all is its text,
    trimmed. *)
Theorem type_alias_without_export (s : Store) (h : Handle)
    (text : jsstring) :
  s h = NTypeAlias text ->
  occurs (js "export") text = false ->
  run (formatTypeAliasDeclaration h) s = inr (trim text).
Proof.
  intros Hn Habsent. unfold run.
  rewrite (formatTypeAliasDeclaration_runs s h _ Hn). cbn [signatureOf].
  now rewrite (replace_absent _ _ _ Habsent).
Qed.

Lemma type_alias_without_export_witness :
  declaredAliasStore 0 = NTypeAlias (js "declare type Id = string;") /\
  occurs (js "export") (js "declare type Id = string;") = false /\
  run (formatTypeAliasDeclaration 0) declaredAliasStore
  = inr (js "declare type Id = string;").
Proof.
  split; [reflexivity|]. split; [reflexivity|].
  exact (type_alias_without_export declaredAliasStore 0
           (js "declare type Id = string;") eq_refl eq_refl).
Defined.

End Prefixes.

(** ** The class and interface rules, further *)

Section Shapes.

Lemma class_run (s : Store) (h : Handle) (c : ClassDeclaration) :
  run (formatClassDeclaration h) (update s h (NClass c))
  = inr (classHeader c ++ classBody c).
Proof.
  unfold run.
  now rewrite (formatClassDeclaration_runs _ h c (update_same s h _)).
Qed.

Lemma filter_isPublic_twice (methods : list MethodDeclaration) :
  filter isPublic (filter isPublic methods) = filter isPublic methods.
Proof.
  induction methods as [|m rest IH]; [reflexivity|].
  cbn [filter]. destruct (isPublic m) eqn:Hm; [|exact IH].
  cbn [filter]. now rewrite Hm, IH.
Qed.

Lemma public_lines_withBody (bodyText : jsstring)
    (methods : list MethodDeclaration) :
  map (fun m => signatureOnly (methodText m))
      (filter isPublic (map (withBody bodyText) methods))
  = map (fun m => signatureOnly (methodText m)) (filter isPublic methods).
Proof.
  induction methods as [|m rest IH]; [reflexivity|].
  cbn [map filter].
  assert (Hscope : isPublic (withBody bodyText m) = isPublic m) by reflexivity.
  assert (Htext : signatureOnly (methodText (withBody bodyText m))
                  = signatureOnly (methodText m)).
  { unfold withBody, signatureOnly. cbn [methodText beforeBody body].
    now destruct (body (methodText m)). }
  rewrite Hscope. destruct (isPublic m); cbn [map]; now rewrite ?Htext, IH.
Qed.

(** X10.  What a class signature does not show: the private and protected
    methods, which can be dropped from the class altogether, and the body
    of any method, which can be replaced by any text. *)
Theorem class_hides_implementation (s : Store) (h : Handle)
    (c : ClassDeclaration) :
  run (formatClassDeclaration h)
      (update s h (NClass (withMethods c (filter isPublic (class_methods c)))))
  = run (formatClassDeclaration h) (update s h (NClass c))
  /\
  (forall bodyText,
     run (formatClassDeclaration h)
         (update s h (NClass (withMethods c
                                (map (withBody bodyText) (class_methods c)))))
     = run (formatClassDeclaration h) (update s h (NClass c))).
Proof.
  split; [|intros bodyText]; rewrite !class_run;
    unfold classBody, classHeader, withMethods;
    cbn [class_methods class_name class_typeParameters class_extends
         class_implements].
  - now rewrite filter_isPublic_twice.
  - now rewrite public_lines_withBody.
Qed.

Lemma app_inv_head_neq (front a b : jsstring) :
  a <> b -> front ++ a <> front ++ b.
Proof. intros Hneq Heq. apply Hneq. now apply app_inv_head in Heq. Qed.

(** X11.  A class signature has the empty body [{ }] exactly when the class has
    no public method. *)
Theorem class_empty_body_iff (s : Store) (h : Handle) (c : ClassDeclaration) :
  s h = NClass c ->
  Forall (fun m => beforeBody (methodText m) <> []) (class_methods c) ->
  (run (formatClassDeclaration h) s = inr (classHeader c ++ js " { }") <->
   filter isPublic (class_methods c) = []).
Proof.
  intros Hn Htext. unfold run.
  rewrite (formatClassDeclaration_runs s h c Hn). cbn [signatureOf].
  unfold classBody. cbv zeta.
  rewrite (filter_truthy_all _ (public_lines_truthy _ Htext)).
  pose proof (public_lines_truthy _ Htext) as Hlines.
  destruct (filter isPublic (class_methods c)) as [|m rest].
  - split; reflexivity.
  - rewrite (join_truthy CRLF _ (signatureOnly (methodText m)));
      [|now left|now inversion Hlines].
    split; [|discriminate]. intros Heq. injection Heq as Heq.
    apply app_inv_head in Heq. discriminate Heq.
Qed.

Lemma class_empty_body_iff_witness :
  emptyShapesStore 2 = NClass sealedClass /\
  Forall (fun m => beforeBody (methodText m) <> [])
         (class_methods sealedClass) /\
  (run (formatClassDeclaration 2) emptyShapesStore
     = inr (classHeader sealedClass ++ js " { }") <->
   filter isPublic (class_methods sealedClass) = []).
Proof.
  assert (Htext : Forall (fun m => beforeBody (methodText m) <> [])
                         (class_methods sealedClass)).
  { repeat constructor; discriminate. }
  split; [reflexivity|]. split; [exact Htext|].
  exact (class_empty_body_iff emptyShapesStore 2 sealedClass eq_refl Htext).
Defined.

Lemma collapse_truthy (text : jsstring) :
  text <> [] -> truthy (removeDoubleSpacesAndLineBreaks text) = true.
Proof.
  destruct text as [|c rest]; [congruence|]. intros _.
  unfold removeDoubleSpacesAndLineBreaks. cbn [replace_space_runs].
  destruct (is_space c); [|reflexivity].
  destruct rest as [|c' rest']; [reflexivity|].
  destruct (is_space c'); reflexivity.
Qed.

Lemma inherited_section_found (s : Store) (bases : list Handle) :
  Exists (fun b => isInterfaceDeclaration (s b) = true) bases ->
  exists line,
    In line (List.concat (map inheritedSection (map s bases))) /\
    truthy line = true.
Proof.
  induction 1 as [b rest Hb | b rest _ [line [Hin Hline]]].
  - destruct (s b) as [| | |bi| | |] eqn:Hn; try discriminate Hb.
    exists (js "// inherited from " ++ iface_name bi). split; [|reflexivity].
    cbn [map List.concat]. rewrite Hn. cbn [inheritedSection app].
    right. now left.
  - exists line. split; [|exact Hline].
    cbn [map List.concat]. apply in_or_app. now right.
Qed.

Lemma interface_bases_cases (s : Store) (bases : list Handle) :
  Forall (fun b => isInterfaceDeclaration (s b) = false) bases \/
  Exists (fun b => isInterfaceDeclaration (s b) = true) bases.
Proof.
  induction bases as [|b rest [IH | IH]].
  - left. constructor.
  - destruct (isInterfaceDeclaration (s b)) eqn:Hb.
    + right. now constructor.
    + left. now constructor.
  - right. now apply Exists_cons_tl.
Qed.

(** X12.  An interface signature has the empty body [{}] exactly when the
    interface has no property of its own and none of its bases is an
    interface. *)
Theorem interface_empty_body_iff (s : Store) (h : Handle)
    (i : InterfaceDeclaration) :
  s h = NInterface i ->
  Forall (fun p => p <> []) (iface_properties i) ->
  (run (formatInterfaceDeclaration h) s = inr (interfaceHeader i ++ js " {}")
   <->
   iface_properties i = [] /\
   Forall (fun b => isInterfaceDeclaration (s b) = false)
          (iface_baseDeclarations i)).
Proof.
  intros Hn Htext. unfold run.
  rewrite (formatInterfaceDeclaration_runs s h i Hn). cbn [signatureOf].
  assert (Hfull : forall line,
            In line (interfaceLines s i) -> truthy line = true ->
            inr (interfaceHeader i ++ interfaceBody s i)
            <> (inr (interfaceHeader i ++ js " {}") : Exception + jsstring)).
  { intros line Hin Hline Heq. injection Heq as Heq.
    apply app_inv_head in Heq.
    rewrite (interfaceBody_lines s i line Hin Hline) in Heq.
    discriminate Heq. }
  split.
  - intros Heq.
    destruct (iface_properties i) as [|p props] eqn:Hprops.
    + split; [reflexivity|].
      destruct (interface_bases_cases s (iface_baseDeclarations i))
        as [Hnone | Hsome]; [exact Hnone|].
      destruct (inherited_section_found s _ Hsome) as [line [Hin Hline]].
      exfalso. apply (Hfull line); [|exact Hline|exact Heq].
      unfold interfaceLines. apply in_or_app. now right.
    + exfalso.
      apply (Hfull (removeDoubleSpacesAndLineBreaks p)); [| |exact Heq].
      * unfold interfaceLines. rewrite Hprops. now left.
      * apply collapse_truthy. now inversion Htext.
  - intros [Hprops Hnone]. unfold interfaceBody, interfaceLines.
    now rewrite Hprops, (no_inherited_section s _ Hnone).
Qed.

Lemma interface_empty_body_iff_witness :
  emptyShapesStore 0 = NInterface markerInterface /\
  Forall (fun p => p <> []) (iface_properties markerInterface) /\
  (run (formatInterfaceDeclaration 0) emptyShapesStore
     = inr (interfaceHeader markerInterface ++ js " {}")
   <->
   iface_properties markerInterface = [] /\
   Forall (fun b => isInterfaceDeclaration (emptyShapesStore b) = false)
          (iface_baseDeclarations markerInterface)).
Proof.
  split; [reflexivity|]. split; [constructor|].
  exact (interface_empty_body_iff emptyShapesStore 0 markerInterface
           eq_refl (Forall_nil _)).
Defined.

(** X13.  With several bases, the sections follow the properties of the
    interface in the order of the bases: every base that is an interface
    gives an empty line, its label and its properties, also when it has no
    property; a base that is not an interface gives nothing. *)
Theorem interface_sections_in_order (s : Store) (h : Handle)
    (i : InterfaceDeclaration) :
  s h = NInterface i ->
  Exists (fun b => isInterfaceDeclaration (s b) = true)
         (iface_baseDeclarations i) ->
  run (formatInterfaceDeclaration h) s =
  inr (interfaceHeader i ++ js " {" ++ CRLF
       ++ join CRLF
            (map removeDoubleSpacesAndLineBreaks (iface_properties i)
             ++ flat_map
                  (fun b =>
                     match s b with
                     | NInterface base =>
                         [ [] ; js "// inherited from " ++ iface_name base ]
                         ++ map removeDoubleSpacesAndLineBreaks
                              (iface_properties base)
                     | _ => []
                     end)
                  (iface_baseDeclarations i))
       ++ CRLF ++ js "}").
Proof.
  intros Hn Hsome. unfold run.
  rewrite (formatInterfaceDeclaration_runs s h i Hn). cbn [signatureOf].
  destruct (inherited_section_found s _ Hsome) as [line [Hin Hline]].
  rewrite (interfaceBody_lines s i line); [| |exact Hline].
  - unfold interfaceLines. do 6 f_equal.
    rewrite flat_map_concat_map, map_map. reflexivity.
  - unfold interfaceLines. apply in_or_app. now right.
Qed.

Lemma interface_sections_in_order_witness :
  pointStore 3 = NInterface pointInterface /\
  Exists (fun b => isInterfaceDeclaration (pointStore b) = true)
         (iface_baseDeclarations pointInterface) /\
  run (formatInterfaceDeclaration 3) pointStore =
  inr (js "interface Point {" ++ CRLF
       ++ js "x: number;" ++ CRLF
       ++ CRLF
       ++ js "// inherited from Shape" ++ CRLF
       ++ js "area: number;" ++ CRLF
       ++ CRLF
       ++ js "// inherited from Serializable" ++ CRLF
       ++ js "}").
Proof.
  assert (Hsome : Exists (fun b => isInterfaceDeclaration (pointStore b) = true)
                         (iface_baseDeclarations pointInterface)).
  { now constructor. }
  split; [reflexivity|]. split; [exact Hsome|].
  exact (interface_sections_in_order pointStore 3 pointInterface eq_refl Hsome).
Defined.

End Shapes.

(** ** The assembler, further *)

Section Runs.

(** X14.  What the rules write.  The function rule leaves the declaration
    without a body, its text being the text before the body closed by a
    semicolon when a body was removed; the variable, interface, type-alias
    and enum rules and the reading of the text of an unknown kind write
    nothing. *)
Theorem rules_write_own_body_only (s : Store) (h : Handle) :
  (forall f,
     s h = NFunction f ->
     exists sig s',
       formatFunctionDeclaration h s = inr (sig, s') /\
       s' h = NFunction {| beforeBody := signatureOnly f; body := None |}) /\
  (forall n sig s',
     s h = n -> isFunctionDeclaration n = false ->
     isClassDeclaration n = false ->
     ruleOf n h s = inr (sig, s') -> s' = s).
Proof.
  split.
  - intros f Hn. do 2 eexists.
    split; [exact (formatFunctionDeclaration_runs s h f Hn)|].
    rewrite update_same. cbn [strip]. f_equal.
    destruct f as [before [bodyText|]]; cbn; [reflexivity|].
    now rewrite app_nil_r.
  - intros n sig s' Hn Hfun Hclass Hrun. subst n.
    destruct (s h) as [c|f|v|i|text|text|k text] eqn:Hn;
      try discriminate; cbn [ruleOf] in Hrun.
    + rewrite (formatVariableDeclaration_runs s h v Hn) in Hrun.
      now injection Hrun.
    + rewrite (formatInterfaceDeclaration_runs s h i Hn) in Hrun.
      now injection Hrun.
    + rewrite (formatTypeAliasDeclaration_runs s h text Hn) in Hrun.
      now injection Hrun.
    + rewrite (formatEnumDeclaration_runs s h text Hn) in Hrun.
      now injection Hrun.
    + unfold getText in Hrun. revert Hrun. script. rewrite Hn.
      intros Hrun. now injection Hrun.
Qed.

Lemma rules_write_own_body_only_witness :
  widgetsStore 0 = NFunction addDeclaration /\
  exists sig s',
    formatFunctionDeclaration 0 widgetsStore = inr (sig, s') /\
    s' 0 = NFunction
             {| beforeBody :=
                  js "export function add(a: number, b: number): number;";
                body := None |}.
Proof.
  split; [reflexivity|].
  exact (proj1 (rules_write_own_body_only widgetsStore 0)
               addDeclaration eq_refl).
Defined.

(** X15.  Formatting a function declaration a second time returns what
    the first formatting returned: the body it removed is not missed. *)
Theorem function_formatting_repeatable (s : Store) (d : Handle) :
  run (formatFunctionDeclaration d ;; formatFunctionDeclaration d) s
  = run (formatFunctionDeclaration d) s.
Proof.
  unfold run, bind.
  destruct (s d) as [c|f|v|i|text|text|k text] eqn:Hn;
    try (unfold formatFunctionDeclaration; script; now rewrite Hn).
  rewrite (formatFunctionDeclaration_runs s d f Hn). cbn [strip].
  rewrite (formatFunctionDeclaration_runs _ d (removeBodyText f)
             (update_same s d _)).
  cbn [signatureOf]. now rewrite signatureOnly_removeBodyText.
Qed.

(** X16.  The records of a list of barrel files come in the order of the
    files: module, exported name, kind and number of signatures of each
    are those of the run of the first part followed by those of the run
    of the second part. *)
Theorem generateApi_app_skeleton (files1 files2 : list SourceFileHandle)
    (s : Store) :
  Forall declared files1 -> Forall declared files2 ->
  exists output1 output2 output,
    run (generateApi files1) s = inr output1 /\
    run (generateApi files2) s = inr output2 /\
    run (generateApi (files1 ++ files2)) s = inr output /\
    map skeleton output = map skeleton output1 ++ map skeleton output2.
Proof.
  intros H1 H2.
  exists (List.concat (map (recordsOf s) files1)),
         (List.concat (map (recordsOf s) files2)),
         (List.concat (map (recordsOf s) (files1 ++ files2))).
  split; [now apply generateApi_runs|]. split; [now apply generateApi_runs|].
  split; [apply generateApi_runs, Forall_app; now split|].
  now rewrite map_app, concat_app, map_app.
Qed.

Lemma generateApi_app_skeleton_witness :
  Forall declared [storeFile] /\ Forall declared [effectsFile] /\
  exists output1 output2 output,
    run (generateApi [storeFile]) projectStore = inr output1 /\
    run (generateApi [effectsFile]) projectStore = inr output2 /\
    run (generateApi ([storeFile] ++ [effectsFile])) projectStore
      = inr output /\
    map skeleton output = map skeleton output1 ++ map skeleton output2.
Proof.
  assert (H1 : Forall declared [storeFile]).
  { repeat constructor; discriminate. }
  assert (H2 : Forall declared [effectsFile]).
  { repeat constructor; discriminate. }
  split; [exact H1|]. split; [exact H2|].
  exact (generateApi_app_skeleton [storeFile] [effectsFile] projectStore H1 H2).
Defined.

Lemma pushExports_undeclared (module : jsstring)
    (entries : list (jsstring * list Handle)) :
  Exists (fun entry => snd entry = []) entries ->
  forall (fileOutput : list Output.t) (s : Store),
    pushExports module entries fileOutput s = inl TypeError.
Proof.
  induction 1 as [[key declarations] rest Hempty
                 | [key declarations] rest _ IH];
    intros fileOutput s.
  - cbn [snd] in Hempty. subst declarations. reflexivity.
  - destruct declarations as [|d0 more]; [reflexivity|].
    destruct (mapM_formatOne (d0 :: more) s) as [s1 [Hsigs _]].
    cbn [pushExports firstKindName]. script. rewrite Hsigs. apply IH.
Qed.

Lemma mapM_generateApiForFile_undeclared (files : list SourceFileHandle) :
  Exists undeclared files ->
  forall s, mapM generateApiForFile files s = inl TypeError.
Proof.
  induction 1 as [file rest Hfile | file rest _ IH]; intros s.
  - cbn [mapM]. unfold bind at 1. unfold generateApiForFile. cbv zeta.
    now rewrite (pushExports_undeclared _ _ Hfile).
  - assert (E : mapM generateApiForFile (file :: rest) s =
                 match pushExports (directoryBaseName file)
                         (exportedDeclarations file) [] s with
                 | inl e => inl e
                 | inr (out, s1) =>
                     match mapM generateApiForFile rest s1 with
                     | inl e => inl e
                     | inr (outs, s2) => inr (out :: outs, s2)
                     end
                 end) by reflexivity.
    rewrite E.
    destruct (pushExports_outcome (directoryBaseName file)
                (exportedDeclarations file) [] s) as [[out [s1 Hrun]] | Hrun];
      rewrite Hrun; [|reflexivity].
    now rewrite IH.
Qed.

Lemma declared_cases (files : list SourceFileHandle) :
  Forall declared files \/ Exists undeclared files.
Proof.
  assert (Hfile : forall file, declared file \/ undeclared file).
  { intros file. unfold declared, undeclared.
    induction (exportedDeclarations file) as [|[key ds] rest [IH | IH]].
    - left. constructor.
    - destruct ds as [|d0 more].
      + right. now constructor.
      + left. constructor; [discriminate | exact IH].
    - right. now apply Exists_cons_tl. }
  induction files as [|file rest [IH | IH]].
  - left. constructor.
  - destruct (Hfile file) as [Hd | Hu].
    + left. now constructor.
    + right. now constructor.
  - right. now apply Exists_cons_tl.
Qed.

(** X17.  A run ends in a TypeError exactly when some exported name of some
    barrel file has an empty array of declarations; no record is returned
    then, not even those of the files before it. *)
Theorem empty_declarations_abort (files : list SourceFileHandle) (s : Store) :
  run (generateApi files) s = inl TypeError <-> Exists undeclared files.
Proof.
  split.
  - intros Hrun. destruct (declared_cases files) as [Hall | Hsome];
      [|exact Hsome].
    rewrite (generateApi_runs files s Hall) in Hrun. discriminate Hrun.
  - intros Hsome. unfold run, generateApi, bind.
    now rewrite (mapM_generateApiForFile_undeclared files Hsome).
Qed.

(** X18.  Every record of a file carries the name of the directory of the file,
    and its kind is the kind name of the first declaration of the exported
    name, whatever the kinds of the declarations after it. *)
Theorem record_kind_of_first (file : SourceFileHandle) (s : Store) :
  declared file ->
  exists output,
    run (generateApiForFile file) s = inr output /\
    Forall2
      (fun entry r =>
         Output.module r = directoryBaseName file /\
         forall d0 more,
           snd entry = d0 :: more -> Output.kind r = getKindName (s d0))
      (exportedDeclarations file) output.
Proof.
  intros Hdeclared.
  destruct (generateApiForFile_runs file s Hdeclared) as [s' [Hrun _]].
  exists (recordsOf s file). split; [unfold run; now rewrite Hrun|].
  unfold recordsOf. apply Forall2_map_same.
  intros [key declarations] _. cbn [recordOf Output.module Output.kind snd].
  split; [reflexivity|]. intros d0 more ->. reflexivity.
Qed.

Lemma record_kind_of_first_witness :
  declared storeFile /\
  exists output,
    run (generateApiForFile storeFile) projectStore = inr output /\
    Forall2
      (fun entry r =>
         Output.module r = directoryBaseName storeFile /\
         forall d0 more,
           snd entry = d0 :: more ->
           Output.kind r = getKindName (projectStore d0))
      (exportedDeclarations storeFile) output.
Proof.
  assert (H : declared storeFile).
  { repeat constructor; discriminate. }
  split; [exact H | exact (record_kind_of_first storeFile projectStore H)].
Defined.

End Runs.
